(** * HttpMediaManager: the direct-network download adapter

    A shallow embedding of [p2p-media-loader-core/lib/http-media-manager.ts]
    and the properties its specification states about it.

    Conventions of the embedding.
    - JavaScript numbers that the adapter handles (priorities, HTTP status
      codes, byte counts, [performance.now()] readings and the configured
      cool-down) are integers of [Z]; the adapter only adds, subtracts and
      compares them.
    - An [ArrayBuffer] is a list of bytes.
    - The two private maps of the class are [gmap]s keyed by segment id.
    - Every [XMLHttpRequest] the adapter creates lives in a heap of request
      objects, addressed by its index; the listeners that [setupXhrEvents]
      attaches, together with the variables they close over, are stored with
      the object they are attached to.
    - A [Segment] is a value.  The one [Segment] object that a [download]
      call shares between its listeners and its record is kept in step: a
      write of a listener into the segment shows in the record filed for the
      same request object.  Objects passed to different calls are distinct.
    - A method is a computation in a state-and-exception monad over the
      adapter's fields, the heap and a trace of the calls that leave the
      adapter (emitted events and invocations of the configured hooks).
    - The clock is read through an explicit argument [now]. *)

From Stdlib Require Import ZArith Lia.
From stdpp Require Import base option list strings gmap pretty.

#[local] Open Scope Z_scope.

(** ** Data *)

Definition Bytes : Type := list Byte.byte.

Definition byteLength (b : Bytes) : Z := Z.of_nat (length b).

(** The fields of [Segment] that the adapter reads or writes. *)
Module Segment.

Record t : Type := mk {
  id : string;
  url : string;
  range : option string;
  priority : Z;
  data : option Bytes;
  requestUrl : option string;
  responseUrl : option string
}.

Definition with_requestUrl (u : string) (s : t) : t :=
  mk (id s) (url s) (range s) (priority s) (data s) (Some u) (responseUrl s).

Definition with_responseUrl (u : option string) (s : t) : t :=
  mk (id s) (url s) (range s) (priority s) (data s) (requestUrl s) u.

Definition with_data (d : Bytes) (s : t) : t :=
  mk (id s) (url s) (range s) (priority s) (Some d) (requestUrl s) (responseUrl s).

End Segment.

(** What a listener receives as the [error] argument of ["segment-error"]:
    the DOM event of the failing listener, or the validator's rejection. *)
Inductive Cause : Type :=
| LoadEvent
| ErrorEvent
| TimeoutEvent
| ValidatorError (reason : string).

(** The five events of [FilteredEmitter], with their arguments. *)
Inductive Event : Type :=
| SegmentStartLoad (segment : Segment.t)
| SegmentLoaded (segment : Segment.t) (data : Bytes)
| SegmentError (segment : Segment.t) (error : Cause)
| SegmentSize (segment : Segment.t) (total : Z)
| BytesDownloaded (segment : Segment.t) (bytesLoaded : Z).

(** The variables the listeners of [setupXhrEvents] close over:
    [segment], [downloadedPieces], the mutable [prevBytesLoaded], and, once
    the ["load"] listener is suspended at its [await], the [data] it holds. *)
Record Listeners : Type := mkListeners {
  l_segment : Segment.t;
  l_downloadedPieces : option (list Bytes);
  prevBytesLoaded : Z;
  l_awaiting : option Bytes
}.

(** An [XMLHttpRequest] object as the adapter uses it. *)
Record Xhr : Type := mkXhr {
  x_method : string;
  x_url : string;
  x_responseType : string;
  x_headers : list (string * string);
  x_sent : bool;
  x_aborted : bool;
  x_status : Z;
  x_response : Bytes;
  x_responseURL : option string;
  x_listeners : option Listeners
}.

Definition fresh_xhr : Xhr :=
  mkXhr "" "" "" [] false false 0 [] (Some "") None.

(** The value type of [xhrRequests]; [xhr] is the address of the request
    object in the heap. *)
Record Request : Type := mkRequest {
  xhr : nat;
  segment : Segment.t;
  initialPriority : Z;
  segmentUrl : string
}.

(** The constructor's [settings].  A hook that is not configured is [None].
    The validator's promise resolves ([None]) or rejects with a reason. *)
Record Settings : Type := mkSettings {
  httpFailedSegmentTimeout : Z;
  httpUseRanges : bool;
  requiredSegmentsPriority : Z;
  skipSegmentBuilderPriority : Z;
  segmentValidator : option (Segment.t → string → option string);
  xhrSetup : option (Xhr → string → Xhr);
  segmentUrlBuilder : option (Segment.t → string)
}.

(** The private fields of the class. *)
Record Adapter : Type := mkAdapter {
  xhrRequests : gmap string Request;
  failedSegments : gmap string Z
}.

(** A call that leaves the adapter.  An emission carries the fields of the
    adapter as they are while the listeners run. *)
Inductive Action : Type :=
| Emitted (e : Event) (seen : Adapter)
| UrlBuilderCalled (segment : Segment.t)
| XhrSetupCalled (xhr : nat) (url : string)
| ValidatorCalled (segment : Segment.t) (method : string).

Record World : Type := mkWorld {
  self : Adapter;
  heap : list Xhr;
  trace : list Action
}.

Definition initial : World := mkWorld (mkAdapter ∅ ∅) [] [].

(** ** The monad of methods *)

Inductive Result (A : Type) : Type :=
| Ok (a : A)
| Throw (message : string).

Arguments Ok {A} a.
Arguments Throw {A} message.

Definition M (A : Type) : Type := World → Result A * World.

#[global] Instance M_ret : MRet M := λ A a w, (Ok a, w).

#[global] Instance M_bind : MBind M := λ A B f m w,
  match m w with
  | (Ok a, w') => f a w'
  | (Throw e, w') => (Throw e, w')
  end.

Definition throw {A} (message : string) : M A := λ w, (Throw message, w).

Definition gets {A} (f : World → A) : M A := λ w, (Ok (f w), w).

Definition modify (f : World → World) : M unit := λ w, (Ok (), f w).

(** The world a computation leaves behind. *)
Definition exec {A} (m : M A) (w : World) : World := (m w).2.

Definition outcome {A} (m : M A) (w : World) : Result A := (m w).1.

(** ** Primitive operations *)

(** Modelled from the spec: [STEEmitter.emit] is declared in
    [stringly-typed-event-emitter.ts], which is not among the sources at
    hand.  Following the design notes (event-emitter style notification,
    listeners called as the event fires), an emission is recorded in the
    trace together with the adapter's fields at that instant, which is what
    a listener calling [isDownloading] or [isFailed] would observe. *)
Definition emit (e : Event) : M unit :=
  modify (λ w, mkWorld (self w) (heap w) (trace w ++ [Emitted e (self w)])).

Definition call_out (a : Action) : M unit :=
  modify (λ w, mkWorld (self w) (heap w) (trace w ++ [a])).

Definition set_xhrRequests (f : gmap string Request → gmap string Request) : M unit :=
  modify (λ w, mkWorld (mkAdapter (f (xhrRequests (self w))) (failedSegments (self w)))
                       (heap w) (trace w)).

Definition set_failedSegments (f : gmap string Z → gmap string Z) : M unit :=
  modify (λ w, mkWorld (mkAdapter (xhrRequests (self w)) (f (failedSegments (self w))))
                       (heap w) (trace w)).

(** [new XMLHttpRequest()]: the next free address of the heap. *)
Definition new_XMLHttpRequest : M nat :=
  λ w, (Ok (length (heap w)), mkWorld (self w) (heap w ++ [fresh_xhr]) (trace w)).

Definition xhr_update (h : nat) (f : Xhr → Xhr) : M unit :=
  modify (λ w, mkWorld (self w) (alter f h (heap w)) (trace w)).

Definition xhr_read (h : nat) : M Xhr :=
  λ w, match heap w !! h with
       | Some x => (Ok x, w)
       | None => (Throw "TypeError: no such XMLHttpRequest", w)
       end.

Definition listeners_read (h : nat) : M Listeners :=
  x ← xhr_read h;
  match x_listeners x with
  | Some l => mret l
  | None => throw "TypeError: no listeners attached"
  end.

Definition xhr_open (method url : string) (x : Xhr) : Xhr :=
  mkXhr method url (x_responseType x) (x_headers x) (x_sent x) (x_aborted x)
        (x_status x) (x_response x) (x_responseURL x) (x_listeners x).

Definition xhr_responseType (ty : string) (x : Xhr) : Xhr :=
  mkXhr (x_method x) (x_url x) ty (x_headers x) (x_sent x) (x_aborted x)
        (x_status x) (x_response x) (x_responseURL x) (x_listeners x).

Definition xhr_setRequestHeader (name value : string) (x : Xhr) : Xhr :=
  mkXhr (x_method x) (x_url x) (x_responseType x) (x_headers x ++ [(name, value)])
        (x_sent x) (x_aborted x) (x_status x) (x_response x) (x_responseURL x)
        (x_listeners x).

Definition xhr_send (x : Xhr) : Xhr :=
  mkXhr (x_method x) (x_url x) (x_responseType x) (x_headers x) true (x_aborted x)
        (x_status x) (x_response x) (x_responseURL x) (x_listeners x).

Definition xhr_abort (x : Xhr) : Xhr :=
  mkXhr (x_method x) (x_url x) (x_responseType x) (x_headers x) (x_sent x) true
        (x_status x) (x_response x) (x_responseURL x) (x_listeners x).

(** The browser fills in the response before it fires ["load"]. *)
Definition xhr_respond (status : Z) (response : Bytes) (responseURL : option string)
    (x : Xhr) : Xhr :=
  mkXhr (x_method x) (x_url x) (x_responseType x) (x_headers x) (x_sent x) (x_aborted x)
        status response responseURL (x_listeners x).

Definition xhr_listeners (f : option Listeners → option Listeners) (x : Xhr) : Xhr :=
  mkXhr (x_method x) (x_url x) (x_responseType x) (x_headers x) (x_sent x) (x_aborted x)
        (x_status x) (x_response x) (x_responseURL x) (f (x_listeners x)).

Definition l_with_segment (s : Segment.t) (l : Listeners) : Listeners :=
  mkListeners s (l_downloadedPieces l) (prevBytesLoaded l) (l_awaiting l).

Definition l_with_prev (n : Z) (l : Listeners) : Listeners :=
  mkListeners (l_segment l) (l_downloadedPieces l) n (l_awaiting l).

Definition l_with_awaiting (d : option Bytes) (l : Listeners) : Listeners :=
  mkListeners (l_segment l) (l_downloadedPieces l) (prevBytesLoaded l) d.

(** The write [segment.responseUrl = ...] of a listener of the request
    object [h], as a record of [xhrRequests] sees it.  The record that
    [download] filed for [h] holds the very [Segment] object the listeners of
    [h] close over, so the write shows in it; a record filed for another
    request object holds the object that other call was given. *)
Definition record_responseUrl (h : nat) (responseUrl : option string) (r : Request)
    : Request :=
  if decide (xhr r = h)
  then mkRequest (xhr r) (Segment.with_responseUrl responseUrl (segment r))
                 (initialPriority r) (segmentUrl r)
  else r.

(** The request object after the [xhrSetup] hook has run on it.  The hook
    may configure the object in any way, but it has no reference to the
    listeners the adapter attached nor to the variables they close over. *)
Definition xhr_hooked (hook : Xhr → string → Xhr) (url : string) (x : Xhr) : Xhr :=
  xhr_listeners (λ _, x_listeners x) (hook x url).

(** JavaScript truthiness of [segment.range : string | undefined]. *)
Definition truthy (r : option string) : bool :=
  match r with
  | Some s => negb (String.eqb s "")
  | None => false
  end.

(** [new Uint8Array(n)] and [target.set(source, offset)]; the latter raises a
    [RangeError] when the source does not fit. *)
Definition Uint8Array_new (n : Z) : Bytes := replicate (Z.to_nat n) Byte.x00.

Definition Uint8Array_set (target source : Bytes) (offset : Z) : M Bytes :=
  if bool_decide (0 ≤ offset ∧ offset + byteLength source ≤ byteLength target)
  then mret (take (Z.to_nat offset) target ++ source
             ++ drop (Z.to_nat offset + length source) target)
  else throw "RangeError: offset is out of bounds".

(** [for (const piece of downloadedPieces) bytesDownloaded += piece.byteLength]. *)
Definition sum_byteLength (pieces : list Bytes) : Z :=
  foldl (λ bytesDownloaded piece, bytesDownloaded + byteLength piece) 0 pieces.

(** ** The methods of [HttpMediaManager] *)

Section HttpMediaManager.

Variable settings : Settings.

Definition isDownloading (segment : Segment.t) : M bool :=
  gets (λ w, bool_decide (is_Some (xhrRequests (self w) !! Segment.id segment))).

Definition isFailed (now : Z) (segment : Segment.t) : M bool :=
  gets (λ w, match failedSegments (self w) !! Segment.id segment with
             | Some time => bool_decide (time > now)
             | None => false
             end).

Definition getActiveDownloads : M (gmap string Request) :=
  gets (λ w, xhrRequests (self w)).

Definition getActiveDownloadsCount : M nat :=
  gets (λ w, size (xhrRequests (self w))).

(** The ids collected in [candidates] are exactly those whose time is below
    [now]; deleting them keeps the other entries. *)
Definition cleanTimedOutFailedSegments (now : Z) : M unit :=
  set_failedSegments (filter (λ entry, ¬ entry.2 < now)).

Definition buildSegmentUrl (segment : Segment.t) : M string :=
  match segmentUrlBuilder settings with
  | Some builder =>
      call_out (UrlBuilderCalled segment);;
      mret (builder segment)
  | None => mret (Segment.url segment)
  end.

Definition segmentFailure (now : Z) (segment : Segment.t) (error : Cause) (xhr : nat)
    : M unit :=
  x ← xhr_read xhr;
  let segment := Segment.with_responseUrl (x_responseURL x) segment in
  xhr_update xhr (xhr_listeners (fmap (l_with_segment segment)));;
  set_xhrRequests (alter (record_responseUrl xhr (x_responseURL x)) (Segment.id segment));;
  set_xhrRequests (delete (Segment.id segment));;
  set_failedSegments
    (<[Segment.id segment := now + httpFailedSegmentTimeout settings]>);;
  emit (SegmentError segment error).

(** The statements of [segmentDownloadFinished] after the validator. *)
Definition segmentDownloadFinished_accepted (segment : Segment.t) (data : Bytes)
    : M unit :=
  set_xhrRequests (delete (Segment.id segment));;
  emit (SegmentLoaded segment data).

(** [segmentDownloadFinished] up to its first suspension: [responseUrl] is
    written into the segment, which the listeners and the request's record
    share; then with a validator configured the hook is called and the
    function is suspended at the [await], holding [data]; without one it runs
    to its end. *)
Definition segmentDownloadFinished (segment : Segment.t) (data : Bytes) (xhr : nat)
    : M unit :=
  x ← xhr_read xhr;
  let segment := Segment.with_responseUrl (x_responseURL x) segment in
  xhr_update xhr (xhr_listeners (fmap (l_with_segment segment)));;
  set_xhrRequests (alter (record_responseUrl xhr (x_responseURL x)) (Segment.id segment));;
  match segmentValidator settings with
  | Some _ =>
      call_out (ValidatorCalled (Segment.with_data data segment) "http");;
      xhr_update xhr (xhr_listeners (fmap (l_with_awaiting (Some data))))
  | None => segmentDownloadFinished_accepted segment data
  end.

(** [segmentDownloadFinished] from the [await] on, when the validator's
    promise settles at time [now]. *)
Definition segmentDownloadFinished_resume (now : Z) (xhr : nat) : M unit :=
  l ← listeners_read xhr;
  match l_awaiting l, segmentValidator settings with
  | Some data, Some validator =>
      xhr_update xhr (xhr_listeners (fmap (l_with_awaiting None)));;
      match validator (Segment.with_data data (l_segment l)) "http" with
      | Some error => segmentFailure now (l_segment l) (ValidatorError error) xhr
      | None => segmentDownloadFinished_accepted (l_segment l) data
      end
  | _, _ => mret ()
  end.

(** The ["progress"] listener; [loaded], [lengthComputable] and [total] are
    the fields of the event. *)
Definition onProgress (xhr : nat) (loaded : Z) (lengthComputable : bool) (total : Z)
    : M unit :=
  l ← listeners_read xhr;
  let bytesLoaded := loaded - prevBytesLoaded l in
  emit (BytesDownloaded (l_segment l) bytesLoaded);;
  xhr_update xhr (xhr_listeners (fmap (l_with_prev loaded)));;
  if lengthComputable then emit (SegmentSize (l_segment l) total) else mret ().

(** The body of [if (downloadedPieces !== undefined && xhr.status === 206)]. *)
Definition reassemble (downloadedPieces : list Bytes) (data : Bytes) : M Bytes :=
  let bytesDownloaded := sum_byteLength downloadedPieces in
  let segmentData := Uint8Array_new (bytesDownloaded + byteLength data) in
  '(segmentData, offset) ←
    foldl (λ (acc : M (Bytes * Z)) piece,
             '(segmentData, offset) ← acc;
             segmentData ← Uint8Array_set segmentData piece offset;
             mret (segmentData, offset + byteLength piece))
          (mret (segmentData, 0)) downloadedPieces;
  Uint8Array_set segmentData data offset.

(** The ["load"] listener. *)
Definition onLoad (now : Z) (xhr : nat) : M unit :=
  x ← xhr_read xhr;
  l ← listeners_read xhr;
  if bool_decide (x_status x < 200 ∨ x_status x >= 300)
  then segmentFailure now (l_segment l) LoadEvent xhr
  else
    data ← match l_downloadedPieces l with
           | Some downloadedPieces =>
               if bool_decide (x_status x = 206)
               then reassemble downloadedPieces (x_response x)
               else mret (x_response x)
           | None => mret (x_response x)
           end;
    segmentDownloadFinished (l_segment l) data xhr.

(** The ["error"] and ["timeout"] listeners. *)
Definition onError (now : Z) (xhr : nat) : M unit :=
  l ← listeners_read xhr;
  segmentFailure now (l_segment l) ErrorEvent xhr.

Definition onTimeout (now : Z) (xhr : nat) : M unit :=
  l ← listeners_read xhr;
  segmentFailure now (l_segment l) TimeoutEvent xhr.

(** [setupXhrEvents] attaches the four listeners above to the request
    object; what it stores are the variables they close over, with
    [prevBytesLoaded] at 0. *)
Definition setupXhrEvents (xhr : nat) (segment : Segment.t)
    (downloadedPieces : option (list Bytes)) : M unit :=
  xhr_update xhr (xhr_listeners (λ _, Some (mkListeners segment downloadedPieces 0 None))).

Definition download (now : Z) (segment : Segment.t)
    (downloadedPieces : option (list Bytes)) : M unit :=
  downloading ← isDownloading segment;
  if (downloading : bool) then mret () else
  cleanTimedOutFailedSegments now;;
  emit (SegmentStartLoad segment);;
  segmentUrl ←
    (if bool_decide (Segment.priority segment ≤ skipSegmentBuilderPriority settings)
     then mret (Segment.url segment)
     else buildSegmentUrl segment);
  let segment := Segment.with_requestUrl segmentUrl segment in
  xhr ← new_XMLHttpRequest;
  xhr_update xhr (xhr_open "GET" segmentUrl);;
  xhr_update xhr (xhr_responseType "arraybuffer");;
  downloadedPieces ←
    (if truthy (Segment.range segment)
     then
       xhr_update xhr (xhr_setRequestHeader "Range" (default "" (Segment.range segment)));;
       mret None
     else
       match downloadedPieces with
       | Some pieces =>
           if httpUseRanges settings
           then
             let bytesDownloaded := sum_byteLength pieces in
             xhr_update xhr
               (xhr_setRequestHeader "Range" ("bytes=" +:+ pretty bytesDownloaded +:+ "-"));;
             mret (Some pieces)
           else mret None
       | None => mret None
       end);
  setupXhrEvents xhr segment downloadedPieces;;
  match xhrSetup settings with
  | Some hook =>
      call_out (XhrSetupCalled xhr segmentUrl);;
      xhr_update xhr (xhr_hooked hook segmentUrl)
  | None => mret ()
  end;;
  set_xhrRequests
    (<[Segment.id segment := mkRequest xhr segment (Segment.priority segment) segmentUrl]>);;
  xhr_update xhr xhr_send.

Definition abort (segment : Segment.t) : M unit :=
  request ← gets (λ w, xhrRequests (self w) !! Segment.id segment);
  match request with
  | Some request =>
      xhr_update (xhr request) xhr_abort;;
      set_xhrRequests (delete (Segment.id segment))
  | None => mret ()
  end.

Definition updatePriority (now : Z) (segment : Segment.t) : M unit :=
  request ← gets (λ w, xhrRequests (self w) !! Segment.id segment);
  match request with
  | None =>
      throw ("Cannot update priority of not downloaded segment " +:+ Segment.id segment)
  | Some request =>
      if bool_decide (Segment.priority segment ≤ skipSegmentBuilderPriority settings)
         && bool_decide (initialPriority request > skipSegmentBuilderPriority settings)
         && negb (String.eqb (segmentUrl request) (Segment.url segment))
      then abort segment;; download now segment None
      else mret ()
  end.

Definition destroy : M unit :=
  requests ← getActiveDownloads;
  modify (λ w, mkWorld (self w)
                       (map_fold (λ _ request heap, alter xhr_abort (xhr request) heap)
                                 (heap w) requests)
                       (trace w));;
  set_xhrRequests (λ _, ∅).

End HttpMediaManager.

(** ** What reaches the listeners *)

(** The browser fires ["progress"], ["load"], ["error"] or ["timeout"] on a
    request object, and the validator's promise settles. *)
Inductive Signal : Type :=
| Progress (loaded : Z) (lengthComputable : bool) (total : Z)
| Load (status : Z) (response : Bytes) (responseURL : option string)
| Error
| Timeout
| Settled.

Definition deliver (settings : Settings) (now : Z) (xhr : nat) (signal : Signal) : M unit :=
  match signal with
  | Progress loaded lengthComputable total => onProgress xhr loaded lengthComputable total
  | Load status response responseURL =>
      xhr_update xhr (xhr_respond status response responseURL);;
      onLoad settings now xhr
  | Error => onError settings now xhr
  | Timeout => onTimeout settings now xhr
  | Settled => segmentDownloadFinished_resume settings now xhr
  end.

(** ** Sequences of calls

    The adapter is driven from one event loop: the scheduler calls its
    public methods, the browser fires the events of the requests, and the
    promises of the validator settle.  Each call runs to its end (or to its
    [await]) before the next one starts. *)
Inductive Call : Type :=
| Download (segment : Segment.t) (downloadedPieces : option (list Bytes))
| UpdatePriority (segment : Segment.t)
| Abort (segment : Segment.t)
| Destroy
| Deliver (xhr : nat) (signal : Signal).

Definition call (settings : Settings) (now : Z) (c : Call) : M unit :=
  match c with
  | Download segment downloadedPieces => download settings now segment downloadedPieces
  | UpdatePriority segment => updatePriority settings now segment
  | Abort segment => abort segment
  | Destroy => destroy
  | Deliver xhr signal => deliver settings now xhr signal
  end.

(** A sequence of calls, each with the reading of the clock during it.  An
    exception goes to the caller of that call; the next call finds the world
    as the failed one left it. *)
Definition calls (settings : Settings) (cs : list (Z * Call)) (w : World) : World :=
  foldl (λ w c, exec (call settings c.1 c.2) w) w cs.

(** The segment id whose listeners are attached to a request object. *)
Definition listening_for (w : World) (xhr : nat) : option string :=
  x ← heap w !! xhr;
  l ← x_listeners x;
  Some (Segment.id (l_segment l)).

(** [c] is a signal to a request object made for the segment [id]. *)
Definition signals (id : string) (w : World) (c : Call) : Prop :=
  match c with
  | Deliver xhr _ => listening_for w xhr = Some id
  | _ => False
  end.

(** [c] is a signal for [id], or asks the adapter to cancel, restart or
    forget the request of [id]. *)
Definition cancels (id : string) (w : World) (c : Call) : Prop :=
  match c with
  | Download _ _ => False
  | UpdatePriority segment | Abort segment => Segment.id segment = id
  | Destroy => True
  | Deliver xhr _ => listening_for w xhr = Some id
  end.

(** No call of the sequence satisfies [P] in the world it is made in. *)
Fixpoint never (P : World → Call → Prop) (settings : Settings)
    (cs : list (Z * Call)) (w : World) : Prop :=
  match cs with
  | [] => True
  | c :: cs => ¬ P w c.2 ∧ never P settings cs (exec (call settings c.1 c.2) w)
  end.

(** The clock does not run backwards: the readings of the sequence are
    non-decreasing from [t] and end at or before [t']. *)
Fixpoint clock_monotone (t : Z) (cs : list (Z * Call)) (t' : Z) : Prop :=
  match cs with
  | [] => t ≤ t'
  | c :: cs => t ≤ c.1 ∧ clock_monotone c.1 cs t'
  end.

(** The [data] that the ["load"] listener hands to [segmentDownloadFinished],
    with the copying loops carried out. *)
Definition load_data (l : Listeners) (status : Z) (response : Bytes) : Bytes :=
  match l_downloadedPieces l with
  | Some downloadedPieces =>
      if bool_decide (status = 206) then concat downloadedPieces ++ response else response
  | None => response
  end.

(** ** The request that [download] sets up

    The pieces of the world [download] leaves behind for a segment that is
    not in flight, read off its body; [download_not_in_flight] below proves
    that they are what the method computes. *)

(** The [segmentUrl] constant and [buildSegmentUrl]. *)
Definition segmentUrl_of (settings : Settings) (segment : Segment.t) : string :=
  if bool_decide (Segment.priority segment ≤ skipSegmentBuilderPriority settings)
  then Segment.url segment
  else match segmentUrlBuilder settings with
       | Some builder => builder segment
       | None => Segment.url segment
       end.

Definition urlBuilder_calls (settings : Settings) (segment : Segment.t) : list Action :=
  if bool_decide (Segment.priority segment ≤ skipSegmentBuilderPriority settings)
  then []
  else match segmentUrlBuilder settings with
       | Some _ => [UrlBuilderCalled segment]
       | None => []
       end.

(** The [Range] header set on the request, if any. *)
Definition range_headers (settings : Settings) (segment : Segment.t)
    (downloadedPieces : option (list Bytes)) : list (string * string) :=
  if truthy (Segment.range segment)
  then [("Range", default "" (Segment.range segment))]
  else match downloadedPieces with
       | Some pieces =>
           if httpUseRanges settings
           then [("Range", "bytes=" +:+ pretty (sum_byteLength pieces) +:+ "-")]
           else []
       | None => []
       end.

(** The value of [downloadedPieces] handed to [setupXhrEvents]. *)
Definition pieces_kept (settings : Settings) (segment : Segment.t)
    (downloadedPieces : option (list Bytes)) : option (list Bytes) :=
  if truthy (Segment.range segment)
  then None
  else match downloadedPieces with
       | Some pieces => if httpUseRanges settings then Some pieces else None
       | None => None
       end.

(** The request object when [setupXhrEvents] has returned. *)
Definition xhr_configured (settings : Settings) (segment : Segment.t)
    (downloadedPieces : option (list Bytes)) : Xhr :=
  let segmentUrl := segmentUrl_of settings segment in
  mkXhr "GET" segmentUrl "arraybuffer"
        (range_headers settings segment downloadedPieces) false false 0 [] (Some "")
        (Some (mkListeners (Segment.with_requestUrl segmentUrl segment)
                           (pieces_kept settings segment downloadedPieces) 0 None)).

(** The request object when [download] returns. *)
Definition xhr_started (settings : Settings) (segment : Segment.t)
    (downloadedPieces : option (list Bytes)) : Xhr :=
  let configured := xhr_configured settings segment downloadedPieces in
  xhr_send match xhrSetup settings with
           | Some hook => xhr_hooked hook (segmentUrl_of settings segment) configured
           | None => configured
           end.

Definition xhrSetup_calls (settings : Settings) (xhr : nat) (segment : Segment.t)
    : list Action :=
  match xhrSetup settings with
  | Some _ => [XhrSetupCalled xhr (segmentUrl_of settings segment)]
  | None => []
  end.

Definition purged (now : Z) (failed : gmap string Z) : gmap string Z :=
  filter (λ entry, ¬ entry.2 < now) failed.

(** The world when [download] returns. *)
Definition world_started (settings : Settings) (now : Z) (segment : Segment.t)
    (downloadedPieces : option (list Bytes)) (w : World) : World :=
  let segmentUrl := segmentUrl_of settings segment in
  let xhr := length (heap w) in
  mkWorld
    (mkAdapter
       (<[Segment.id segment :=
            mkRequest xhr (Segment.with_requestUrl segmentUrl segment)
                      (Segment.priority segment) segmentUrl]> (xhrRequests (self w)))
       (purged now (failedSegments (self w))))
    (heap w ++ [xhr_started settings segment downloadedPieces])
    (trace w
     ++ [Emitted (SegmentStartLoad segment)
                 (mkAdapter (xhrRequests (self w)) (purged now (failedSegments (self w))))]
     ++ urlBuilder_calls settings segment
     ++ xhrSetup_calls settings xhr segment).

(** ** Terms of the specification *)

(** The specification calls a segment mandatory when its priority is at most
    [requiredSegmentsPriority] (priority-window policy and glossary). *)
Definition spec_mandatory (settings : Settings) (priority : Z) : Prop :=
  priority ≤ requiredSegmentsPriority settings.

(** The test of [updatePriority], on the threshold the code compares with. *)
Definition must_restart (settings : Settings) (segment : Segment.t) (request : Request)
    : Prop :=
  Segment.priority segment ≤ skipSegmentBuilderPriority settings
  ∧ initialPriority request > skipSegmentBuilderPriority settings
  ∧ segmentUrl request ≠ Segment.url segment.

(** The failures the specification lists for a download: a ["load"] with a
    status outside 200..299, an ["error"], a ["timeout"], or the rejection of
    the payload by the configured validator.  The result is the cause handed
    to the listeners of ["segment-error"]. *)
Definition failure_cause (settings : Settings) (l : Listeners) (signal : Signal)
    : option Cause :=
  match signal with
  | Progress _ _ _ => None
  | Load status _ _ =>
      if bool_decide (200 ≤ status < 300) then None else Some LoadEvent
  | Error => Some ErrorEvent
  | Timeout => Some TimeoutEvent
  | Settled =>
      match l_awaiting l, segmentValidator settings with
      | Some data, Some validator =>
          ValidatorError <$> validator (Segment.with_data data (l_segment l)) "http"
      | _, _ => None
      end
  end.

(** The ["load"] listener passes [data] on between [w] and [w']: to the
    validator when one is configured, otherwise to the listeners of
    ["segment-loaded"]; nothing else leaves the adapter. *)
Definition hands_over (settings : Settings) (w w' : World) (data : Bytes) : Prop :=
  ∃ segment',
    match segmentValidator settings with
    | Some _ =>
        trace w' = trace w ++ [ValidatorCalled (Segment.with_data data segment') "http"]
    | None => trace w' = trace w ++ [Emitted (SegmentLoaded segment' data) (self w')]
    end.

(** A run of ["progress"] events on one request object, each given by the
    [loaded], [lengthComputable] and [total] of the event.  The listener does
    not read the clock. *)
Definition progress_events (xhr : nat) (events : list (Z * bool * Z)) : list (Z * Call) :=
  map (λ event, (0, Deliver xhr (Progress event.1.1 event.1.2 event.2))) events.

(** The sum of the byte counts carried by the ["bytes-downloaded"] events of
    a trace, and the number of its ["segment-size"] events. *)
Fixpoint bytes_reported (t : list Action) : Z :=
  match t with
  | [] => 0
  | Emitted (BytesDownloaded _ bytesLoaded) _ :: t => bytesLoaded + bytes_reported t
  | _ :: t => bytes_reported t
  end.

Fixpoint sizes_reported (t : list Action) : nat :=
  match t with
  | [] => 0
  | Emitted (SegmentSize _ _) _ :: t => S (sizes_reported t)
  | _ :: t => sizes_reported t
  end.

(** The [loaded] of the last event, or [prev] when there is none. *)
Definition last_loaded (prev : Z) (events : list (Z * bool * Z)) : Z :=
  foldl (λ _ event, event.1.1) prev events.

(** A computation that changes no request object other than [xhr]. *)
Definition confined {A} (xhr : nat) (m : M A) : Prop :=
  ∀ w k, k ≠ xhr → heap (m w).2 !! k = heap w !! k.

(** The listeners of a request object and the variables they close over. *)
Definition listeners_at (w : World) (xhr : nat) : option Listeners :=
  x ← heap w !! xhr; x_listeners x.

(** ** Consistency of the adapter's records

    Every record of [xhrRequests] is filed under the id of its segment, its
    request object carries the listeners set up for that segment, and the
    segment carries the URL the request was opened with. *)
Definition well_formed (w : World) : Prop :=
  ∀ id request,
    xhrRequests (self w) !! id = Some request →
    Segment.id (segment request) = id
    ∧ listening_for w (xhr request) = Some id
    ∧ Segment.requestUrl (segment request) = Some (segmentUrl request).

(** The signals on which a download ends in ["segment-loaded"]: a ["load"]
    with a status in 200..299 when no validator is configured, and the
    resolution of the validator's promise. *)
Definition success_signal (settings : Settings) (l : Listeners) (signal : Signal) : bool :=
  match signal with
  | Load status _ _ =>
      bool_decide (200 ≤ status < 300)
      && match segmentValidator settings with Some _ => false | None => true end
  | Settled =>
      match l_awaiting l, segmentValidator settings with
      | Some data, Some validator =>
          bool_decide (validator (Segment.with_data data (l_segment l)) "http" = None)
      | _, _ => false
      end
  | _ => false
  end.

(** [c] takes the segment [id] out of [xhrRequests]: an [abort], [destroy]
    or restart of it, or the end (failure or success) of a request that was
    made for it, whichever request object the signal comes from. *)
Definition removes (settings : Settings) (id : string) (w : World) (c : Call) : Prop :=
  match c with
  | Download _ _ => False
  | UpdatePriority segment | Abort segment => Segment.id segment = id
  | Destroy => True
  | Deliver xhr signal =>
      ∃ l, listeners_at w xhr = Some l
           ∧ Segment.id (l_segment l) = id
           ∧ (is_Some (failure_cause settings l signal)
              ∨ success_signal settings l signal = true)
  end.

(** ** Example configurations *)

Module Examples.

Definition s0 : Segment.t :=
  Segment.mk "s0" "http://origin/s0.ts" None 5 None None None.

Definition s0_urgent : Segment.t :=
  Segment.mk "s0" "http://origin/s0.ts" None 0 None None None.

Definition s1 : Segment.t :=
  Segment.mk "s1" "http://origin/s1.ts" (Some "bytes=100-199") 5 None None None.

Definition cdn (segment : Segment.t) : string := "http://cdn/" +:+ Segment.id segment.

Definition plain : Settings := mkSettings 10000 true 1 1 None None (Some cdn).

Definition started : World := exec (download plain 0 s0 None) initial.

(** [requiredSegmentsPriority] is 3 and [skipSegmentBuilderPriority] is 1. *)
Definition two_thresholds : Settings := mkSettings 10000 true 3 1 None None (Some cdn).

Definition s0_required : Segment.t :=
  Segment.mk "s0" "http://origin/s0.ts" None 2 None None None.

Definition started_two_thresholds : World :=
  exec (download two_thresholds 0 s0 None) initial.

(** A validator that rejects payloads whose first byte is not [0x47]. *)
Definition sync_byte (segment : Segment.t) (method : string) : option string :=
  match Segment.data segment with
  | Some (Byte.x47 :: _) => None
  | _ => Some "no sync byte"
  end.

Definition validating : Settings :=
  mkSettings 10000 true 1 1 (Some sync_byte) None (Some cdn).

Definition started_validating : World := exec (download validating 0 s0 None) initial.

Definition loaded_bad : World :=
  exec (deliver validating 40 0 (Load 200 [Byte.x00; Byte.x01] (Some "http://cdn/s0")))
       started_validating.

Definition chunks : list Bytes := [[Byte.x47; Byte.x40]; [Byte.x11]].

Definition resumed : World := exec (download plain 0 s0 (Some chunks)) initial.

(** The request of [s0] fails at time 100 with a network error. *)
Definition failed_at_100 : World := exec (deliver plain 100 0 Error) started.

(** Afterwards [s1] is downloaded at 200 and completes at 9000. *)
Definition meanwhile : list (Z * Call) :=
  [(200, Download s1 None); (9000, Deliver 1 (Load 200 [Byte.x47] (Some "http://cdn/s1")))].

(** The blacklist entry of [s0] (time 10100) is still there at 20000, when
    [s1] is downloaded. *)
Definition late_download : Call := Download s1 None.

(** Both [s0] and [s1] are in flight. *)
Definition two_in_flight : list (Z * Call) :=
  [(0, Download s0 None); (5, Download s1 None)].

Definition loaded_good : World :=
  exec (deliver validating 40 0 (Load 200 [Byte.x47; Byte.x01] (Some "http://cdn/s0")))
       started_validating.

(** [s0] is loaded and handed to the validator, then aborted and requested
    again while the validator is still at work. *)
Definition restarted_during_validation : World :=
  calls validating [(60, Abort s0); (70, Download s0 None)] loaded_good.

(** The bytes of the second request arrive and go to the validator. *)
Definition second_arrival : World :=
  exec (deliver validating 75 1 (Load 200 [Byte.x47; Byte.x02] (Some "http://cdn/s0")))
       restarted_during_validation.

End Examples.

(** ** Proof support *)

Ltac run :=
  unfold exec, outcome, deliver, updatePriority, abort, download, onLoad, onError,
    onTimeout, onProgress, segmentDownloadFinished_resume, segmentDownloadFinished,
    segmentDownloadFinished_accepted, segmentFailure, setupXhrEvents, buildSegmentUrl,
    cleanTimedOutFailedSegments, isDownloading, isFailed, getActiveDownloadsCount,
    listeners_read, xhr_read, xhr_update, new_XMLHttpRequest, set_failedSegments,
    set_xhrRequests, call_out, emit, throw, gets, modify, mbind, M_bind, mret, M_ret
    in *;
  cbn [fst snd self heap trace xhrRequests failedSegments] in *.

Lemma isDownloading_false (segment : Segment.t) (w : World) :
  isDownloading segment w = (Ok false, w)
  ↔ xhrRequests (self w) !! Segment.id segment = None.
Proof.
  unfold isDownloading, gets. split.
  - intros [= H]. apply bool_decide_eq_false in H.
    destruct (xhrRequests (self w) !! Segment.id segment); [destruct H|]; eauto.
  - intros ->. done.
Qed.

Lemma isDownloading_true (segment : Segment.t) (w : World) :
  isDownloading segment w = (Ok true, w)
  ↔ is_Some (xhrRequests (self w) !! Segment.id segment).
Proof.
  unfold isDownloading, gets. split.
  - intros [= H]. by apply bool_decide_eq_true in H.
  - intros H. by rewrite bool_decide_eq_true_2.
Qed.

(** ** Calls on a segment that is already in flight, or not in flight *)

(** C10: [download] on a segment that already has a request in flight
    returns at once and changes nothing: no request object is created, no
    event is emitted, the blacklist keeps its entries and the request record
    is the one that was there. *)
Theorem download_in_flight_noop (settings : Settings) (now : Z) (segment : Segment.t)
    (downloadedPieces : option (list Bytes)) (w : World) :
  isDownloading segment w = (Ok true, w) →
  download settings now segment downloadedPieces w = (Ok (), w).
Proof.
  run. intros [= H]. by rewrite H.
Qed.

Lemma download_in_flight_noop_witness :
  isDownloading Examples.s0 Examples.started = (Ok true, Examples.started)
  ∧ download Examples.plain 7 Examples.s0_urgent (Some [[Byte.x01]]) Examples.started
    = (Ok (), Examples.started).
Proof.
  split; [reflexivity | by apply download_in_flight_noop].
Defined.

Lemma updatePriority_unknown (settings : Settings) (now : Z) (segment : Segment.t)
    (w : World) :
  xhrRequests (self w) !! Segment.id segment = None →
  updatePriority settings now segment w
  = (Throw ("Cannot update priority of not downloaded segment " +:+ Segment.id segment), w).
Proof. intros E. unfold updatePriority, gets, mbind, M_bind. by rewrite E. Qed.

(** C5: [updatePriority] on a segment with no request in flight throws, and
    the adapter, the request objects and the trace are as before the call. *)
Theorem updatePriority_not_downloading_throws (settings : Settings) (now : Z)
    (segment : Segment.t) (w : World) :
  isDownloading segment w = (Ok false, w) →
  updatePriority settings now segment w
  = (Throw ("Cannot update priority of not downloaded segment " +:+ Segment.id segment), w).
Proof. intros E%isDownloading_false. by apply updatePriority_unknown. Qed.

Lemma updatePriority_not_downloading_throws_witness :
  isDownloading Examples.s1 Examples.started = (Ok false, Examples.started)
  ∧ updatePriority Examples.plain 7 Examples.s1 Examples.started
    = (Throw "Cannot update priority of not downloaded segment s1", Examples.started).
Proof.
  split; [reflexivity | by apply updatePriority_not_downloading_throws].
Defined.

(** ** Cancellation *)

Lemma abort_not_downloading (segment : Segment.t) (w : World) :
  xhrRequests (self w) !! Segment.id segment = None →
  abort segment w = (Ok (), w).
Proof. run. by intros ->. Qed.

Lemma abort_downloading (segment : Segment.t) (request : Request) (w : World) :
  xhrRequests (self w) !! Segment.id segment = Some request →
  abort segment w
  = (Ok (), mkWorld (mkAdapter (delete (Segment.id segment) (xhrRequests (self w)))
                               (failedSegments (self w)))
                    (alter xhr_abort (xhr request) (heap w)) (trace w)).
Proof. run. by intros ->. Qed.

(** C9: [abort] on a segment with no request in flight changes nothing; on a
    segment in flight it calls [abort] on the request object and has deleted
    the segment from [xhrRequests] when it returns, so [isDownloading] is
    false and [getActiveDownloadsCount] is one less; and a second [abort]
    changes nothing more. *)
Theorem abort_idempotent_and_synchronous (segment : Segment.t) (w : World) :
  (isDownloading segment w = (Ok false, w) → abort segment w = (Ok (), w))
  ∧ (isDownloading segment w = (Ok true, w) →
     let w' := exec (abort segment) w in
     outcome (abort segment) w = Ok ()
     ∧ outcome (isDownloading segment) w' = Ok false
     ∧ (∃ n, outcome getActiveDownloadsCount w = Ok (S n)
             ∧ outcome getActiveDownloadsCount w' = Ok n)
     ∧ ∀ request, xhrRequests (self w) !! Segment.id segment = Some request →
                  heap w' = alter xhr_abort (xhr request) (heap w))
  ∧ abort segment (exec (abort segment) w) = (Ok (), exec (abort segment) w).
Proof.
  destruct (xhrRequests (self w) !! Segment.id segment) as [request|] eqn:E.
  - split; [|split].
    + intros E'%isDownloading_false. congruence.
    + intros _. unfold outcome, exec. rewrite (abort_downloading _ _ _ E). cbn.
      split; [done|split; [|split]].
      * unfold isDownloading, gets. cbn. by rewrite lookup_delete_eq.
      * unfold getActiveDownloadsCount, gets. cbn [fst self xhrRequests].
        rewrite map_size_delete, E.
        assert (size (xhrRequests (self w)) ≠ 0%nat)
          by (apply (map_size_ne_0_lookup_2 _ (Segment.id segment)); rewrite E; eauto).
        exists (pred (size (xhrRequests (self w)))). split; [f_equal; lia|done].
      * by intros ? [= <-].
    + unfold exec. rewrite (abort_downloading _ _ _ E). cbn.
      apply abort_not_downloading. cbn. apply lookup_delete_eq.
  - unfold exec, outcome. rewrite !(abort_not_downloading _ _ E). cbn.
    split; [done|split; [|by apply abort_not_downloading]].
    intros [? E']%isDownloading_true. congruence.
Qed.

Lemma abort_idempotent_and_synchronous_witness :
  isDownloading Examples.s0 Examples.started = (Ok true, Examples.started)
  ∧ outcome (isDownloading Examples.s0) (exec (abort Examples.s0) Examples.started)
    = Ok false
  ∧ ∃ n, outcome getActiveDownloadsCount Examples.started = Ok (S n)
         ∧ outcome getActiveDownloadsCount (exec (abort Examples.s0) Examples.started)
           = Ok n.
Proof.
  split; [reflexivity|].
  destruct (proj1 (proj2 (abort_idempotent_and_synchronous Examples.s0 Examples.started))
              eq_refl) as (_ & Hd & Hn & _).
  split; [exact Hd | exact Hn].
Defined.

Lemma alter_last {A} (f : A → A) (l : list A) (x : A) :
  alter f (length l) (l ++ [x]) = l ++ [f x].
Proof. rewrite alter_app_r_alt by lia. by rewrite Nat.sub_diag. Qed.

(** ** Starting a download *)

Lemma download_not_in_flight (settings : Settings) (now : Z) (segment : Segment.t)
    (downloadedPieces : option (list Bytes)) (w : World) :
  xhrRequests (self w) !! Segment.id segment = None →
  download settings now segment downloadedPieces w
  = (Ok (), world_started settings now segment downloadedPieces w).
Proof.
  intros E. unfold world_started, xhr_started, xhr_configured, xhrSetup_calls, urlBuilder_calls,
    range_headers, pieces_kept, segmentUrl_of, purged.
  run. rewrite E. rewrite bool_decide_eq_false_2 by (by intros [??]).
  destruct (bool_decide (Segment.priority segment ≤ _));
    destruct (segmentUrlBuilder settings);
    cbn [heap self trace fst snd Segment.range Segment.with_requestUrl Segment.id
         Segment.priority];
    destruct (truthy (Segment.range segment));
    destruct downloadedPieces; destruct (httpUseRanges settings);
    destruct (xhrSetup settings);
    cbn [heap self trace fst snd Segment.range Segment.with_requestUrl Segment.id
         Segment.priority];
    rewrite ?alter_last, <- ?app_assoc, ?app_nil_r; reflexivity.
Qed.

(** C6: for a segment that is not in flight, [download] records and opens
    the request with the literal [segment.url] when the priority is at most
    [skipSegmentBuilderPriority], and then does not call the URL builder;
    above the threshold it uses the builder's result when a builder is
    configured, and the literal URL otherwise. *)
Theorem download_request_url (settings : Settings) (now : Z) (seg : Segment.t)
    (downloadedPieces : option (list Bytes)) (w : World) :
  isDownloading seg w = (Ok false, w) →
  let w' := exec (download settings now seg downloadedPieces) w in
  ∃ request x calls,
    outcome (download settings now seg downloadedPieces) w = Ok ()
    ∧ xhrRequests (self w') !! Segment.id seg = Some request
    ∧ Segment.requestUrl (segment request) = Some (segmentUrl request)
    ∧ heap w' !! xhr request = Some x
    ∧ (xhrSetup settings = None → x_method x = "GET" ∧ x_url x = segmentUrl request)
    ∧ trace w' = trace w ++ calls
    ∧ (Segment.priority seg ≤ skipSegmentBuilderPriority settings →
       segmentUrl request = Segment.url seg
       ∧ ∀ s, UrlBuilderCalled s ∉ calls)
    ∧ (Segment.priority seg > skipSegmentBuilderPriority settings →
       ∀ builder, segmentUrlBuilder settings = Some builder →
       segmentUrl request = builder seg ∧ UrlBuilderCalled seg ∈ calls)
    ∧ (Segment.priority seg > skipSegmentBuilderPriority settings →
       segmentUrlBuilder settings = None →
       segmentUrl request = Segment.url seg
       ∧ ∀ s, UrlBuilderCalled s ∉ calls).
Proof.
  intros E%isDownloading_false.
  unfold exec, outcome. rewrite (download_not_in_flight _ _ _ _ _ E).
  unfold world_started. cbn [fst snd self heap trace xhrRequests].
  eexists _, _, _. split; [done|]. split; [apply lookup_insert_eq|].
  cbn [segment segmentUrl xhr Segment.requestUrl Segment.with_requestUrl].
  split; [done|]. split; [apply list_lookup_middle; done|].
  split.
  { intros Hs. unfold xhr_started. by rewrite Hs. }
  split; [done|].
  unfold segmentUrl_of, urlBuilder_calls, xhrSetup_calls.
  assert (∀ s e a, UrlBuilderCalled s ∉ [Emitted e a] ++ [] ++ xhrSetup_calls settings (length (heap w)) seg) as Hno.
  { intros s e a. unfold xhrSetup_calls.
    destruct (xhrSetup settings); cbn; intros Hin;
      repeat (apply elem_of_cons in Hin as [Hin|Hin]; [discriminate|]);
      by apply elem_of_nil in Hin. }
  split_and!.
  - intros Hp. rewrite !bool_decide_eq_true_2 by done. split; [done|]. intros s. apply Hno.
  - intros Hp builder Hb. rewrite !bool_decide_eq_false_2 by lia. rewrite Hb.
    split; [done|]. set_solver.
  - intros Hp Hb. rewrite !bool_decide_eq_false_2 by lia. rewrite Hb.
    split; [done|]. intros s. apply Hno.
Qed.

Lemma download_request_url_witness :
  isDownloading Examples.s0 initial = (Ok false, initial)
  ∧ ∃ request,
      xhrRequests (self (exec (download Examples.plain 0 Examples.s0 None) initial)) !! "s0"
      = Some request
      ∧ segmentUrl request = "http://cdn/s0".
Proof.
  split; [reflexivity|].
  destruct (download_request_url Examples.plain 0 Examples.s0 None initial eq_refl)
    as (request & x & calls & _ & Hr & _ & _ & _ & _ & _ & Hb & _).
  exists request. split; [exact Hr|].
  by destruct (Hb ltac:(cbn; lia) Examples.cdn eq_refl) as [-> _].
Defined.

(** ** A change of priority while a request is in flight *)

Lemma must_restart_test (settings : Settings) (segment : Segment.t) (request : Request) :
  bool_decide (Segment.priority segment ≤ skipSegmentBuilderPriority settings)
  && bool_decide (initialPriority request > skipSegmentBuilderPriority settings)
  && negb (String.eqb (segmentUrl request) (Segment.url segment)) = true
  ↔ must_restart settings segment request.
Proof.
  unfold must_restart.
  rewrite !andb_true_iff, !bool_decide_eq_true, negb_true_iff, String.eqb_neq. tauto.
Qed.

Lemma updatePriority_restart (settings : Settings) (now : Z) (segment : Segment.t)
    (request : Request) (w : World) :
  xhrRequests (self w) !! Segment.id segment = Some request →
  must_restart settings segment request →
  updatePriority settings now segment w
  = (Ok (), world_started settings now segment None
              (mkWorld (mkAdapter (delete (Segment.id segment) (xhrRequests (self w)))
                                  (failedSegments (self w)))
                       (alter xhr_abort (xhr request) (heap w)) (trace w))).
Proof.
  intros E Hr%must_restart_test.
  unfold updatePriority, gets, mbind, M_bind. rewrite E, Hr.
  rewrite (abort_downloading _ _ _ E).
  apply download_not_in_flight. cbn. apply lookup_delete_eq.
Qed.

Lemma updatePriority_keep (settings : Settings) (now : Z) (segment : Segment.t)
    (request : Request) (w : World) :
  xhrRequests (self w) !! Segment.id segment = Some request →
  ¬ must_restart settings segment request →
  updatePriority settings now segment w = (Ok (), w).
Proof.
  intros E Hr. rewrite <- must_restart_test in Hr. apply not_true_is_false in Hr.
  unfold updatePriority, gets, mbind, M_bind. by rewrite E, Hr.
Qed.

(** C1, as stated, fails: with [requiredSegmentsPriority = 3] and
    [skipSegmentBuilderPriority = 1], a request started at priority 5 under
    the rewritten URL is left as it is when the segment's priority becomes 2,
    although 5 is not mandatory, 2 is, and the literal URL differs from the
    one in flight. *)
Lemma updatePriority_mandatory_not_restarted :
  ∃ request,
    xhrRequests (self Examples.started_two_thresholds) !! "s0" = Some request
    ∧ ¬ spec_mandatory Examples.two_thresholds (initialPriority request)
    ∧ spec_mandatory Examples.two_thresholds (Segment.priority Examples.s0_required)
    ∧ segmentUrl request ≠ Segment.url Examples.s0_required
    ∧ updatePriority Examples.two_thresholds 7 Examples.s0_required
        Examples.started_two_thresholds
      = (Ok (), Examples.started_two_thresholds).
Proof.
  eexists. split; [reflexivity|]. unfold spec_mandatory. cbn.
  split; [lia|]. split; [lia|]. split; [discriminate|]. reflexivity.
Qed.

(** C1, amended: for a segment with a request in flight, [updatePriority]
    aborts that request and starts a new one on the literal [segment.url]
    exactly when the segment's priority is at most
    [skipSegmentBuilderPriority], the priority recorded when the request was
    started was above [skipSegmentBuilderPriority], and the literal URL
    differs from the URL in flight; in every other case it changes nothing. *)
Theorem updatePriority_restarts_iff (settings : Settings) (now : Z)
    (segment : Segment.t) (request : Request) (w : World) :
  xhrRequests (self w) !! Segment.id segment = Some request →
  let w' := exec (updatePriority settings now segment) w in
  outcome (updatePriority settings now segment) w = Ok ()
  ∧ (must_restart settings segment request →
     (∀ x, heap w !! xhr request = Some x → heap w' !! xhr request = Some (xhr_abort x))
     ∧ ∃ request' x',
         xhrRequests (self w') !! Segment.id segment = Some request'
         ∧ xhr request' = length (heap w)
         ∧ segmentUrl request' = Segment.url segment
         ∧ initialPriority request' = Segment.priority segment
         ∧ heap w' !! xhr request' = Some x'
         ∧ (xhrSetup settings = None →
            x_url x' = Segment.url segment ∧ x_sent x' = true ∧ x_aborted x' = false))
  ∧ (¬ must_restart settings segment request → w' = w).
Proof.
  intros E w'. subst w'. unfold exec, outcome.
  destruct (decide (must_restart settings segment request)) as [Hr|Hr].
  - rewrite (updatePriority_restart _ _ _ _ _ E Hr).
    split; [done|]. split; [|done]. intros _.
    unfold world_started. cbn [fst snd self heap trace xhrRequests].
    assert (segmentUrl_of settings segment = Segment.url segment) as HU.
    { unfold segmentUrl_of. destruct Hr as [? _]. by rewrite bool_decide_eq_true_2. }
    rewrite length_alter. split.
    + intros x Hx. rewrite lookup_app_l by (rewrite length_alter; by eapply lookup_lt_Some).
      by rewrite list_lookup_alter_eq, Hx.
    + eexists _, _. split; [apply lookup_insert_eq|].
      cbn [xhr segmentUrl initialPriority].
      split; [done|]. split; [done|]. split; [done|].
      split; [rewrite <- (length_alter xhr_abort (heap w) (xhr request));
              by apply list_lookup_middle|].
      intros Hs. unfold xhr_started, xhr_configured. rewrite Hs, HU. done.
  - rewrite (updatePriority_keep _ _ _ _ _ E Hr). done.
Qed.

Lemma updatePriority_restarts_iff_witness :
  ∃ request,
    xhrRequests (self Examples.started) !! "s0" = Some request
    ∧ must_restart Examples.plain Examples.s0_urgent request
    ∧ ∃ request',
        xhrRequests (self (exec (updatePriority Examples.plain 7 Examples.s0_urgent)
                             Examples.started)) !! "s0" = Some request'
        ∧ segmentUrl request' = "http://origin/s0.ts".
Proof.
  eexists. split; [reflexivity|].
  assert (must_restart Examples.plain Examples.s0_urgent
            (mkRequest 0 (Segment.with_requestUrl "http://cdn/s0" Examples.s0) 5
                       "http://cdn/s0")) as Hr.
  { unfold must_restart. cbn. split; [lia|]. split; [lia|discriminate]. }
  split; [exact Hr|].
  destruct (updatePriority_restarts_iff Examples.plain 7 Examples.s0_urgent _
              Examples.started eq_refl) as (_ & H & _).
  destruct (H Hr) as (_ & request' & x' & Hl & _ & Hu & _).
  exists request'. split; [exact Hl | exact Hu].
Defined.

(** ** Failure of a download *)

Lemma xhr_read_ok (h : nat) (x : Xhr) (w : World) :
  heap w !! h = Some x → xhr_read h w = (Ok x, w).
Proof. unfold xhr_read. by intros ->. Qed.

Lemma listeners_read_ok (h : nat) (x : Xhr) (l : Listeners) (w : World) :
  heap w !! h = Some x → x_listeners x = Some l → listeners_read h w = (Ok l, w).
Proof.
  intros Hx Hl. unfold listeners_read, mbind, M_bind. by rewrite (xhr_read_ok _ _ _ Hx), Hl.
Qed.

Lemma segmentFailure_ok (settings : Settings) (now : Z) (segment : Segment.t)
    (error : Cause) (h : nat) (x : Xhr) (w : World) :
  heap w !! h = Some x →
  let segment' := Segment.with_responseUrl (x_responseURL x) segment in
  let self' :=
    mkAdapter (delete (Segment.id segment) (xhrRequests (self w)))
              (<[Segment.id segment := now + httpFailedSegmentTimeout settings]>
                 (failedSegments (self w))) in
  segmentFailure settings now segment error h w
  = (Ok (), mkWorld self' (alter (xhr_listeners (fmap (l_with_segment segment'))) h (heap w))
                    (trace w ++ [Emitted (SegmentError segment' error) self'])).
Proof.
  intros Hx. unfold segmentFailure, mbind at 1, M_bind at 1.
  rewrite (xhr_read_ok _ _ _ Hx).
  unfold mbind, M_bind, xhr_update, set_xhrRequests, set_failedSegments, emit, modify.
  cbn [self heap trace xhrRequests failedSegments Segment.id Segment.with_responseUrl].
  by rewrite delete_alter_eq.
Qed.

(** The world after a failure of the segment [id], reported with
    [segment'] and [cause]. *)
Lemma deliver_failed (settings : Settings) (now : Z) (h : nat) (x : Xhr) (l : Listeners)
    (signal : Signal) (cause : Cause) (w : World) :
  heap w !! h = Some x →
  x_listeners x = Some l →
  failure_cause settings l signal = Some cause →
  let self' :=
    mkAdapter (delete (Segment.id (l_segment l)) (xhrRequests (self w)))
              (<[Segment.id (l_segment l) := now + httpFailedSegmentTimeout settings]>
                 (failedSegments (self w))) in
  ∃ segment' heap',
    Segment.id segment' = Segment.id (l_segment l)
    ∧ deliver settings now h signal w
      = (Ok (), mkWorld self' heap' (trace w ++ [Emitted (SegmentError segment' cause) self'])).
Proof.
  intros Hx Hl Hc. cbn zeta.
  assert (∀ error (x0 : Xhr) (w0 : World),
            heap w0 !! h = Some x0 →
            self w0 = self w → trace w0 = trace w →
            ∃ segment' heap',
              Segment.id segment' = Segment.id (l_segment l)
              ∧ segmentFailure settings now (l_segment l) error h w0
                = (Ok (),
                   mkWorld
                     (mkAdapter
                        (delete (Segment.id (l_segment l)) (xhrRequests (self w)))
                        (<[Segment.id (l_segment l)
                           := now + httpFailedSegmentTimeout settings]>
                           (failedSegments (self w))))
                     heap'
                     (trace w
                      ++ [Emitted (SegmentError segment' error)
                            (mkAdapter
                               (delete (Segment.id (l_segment l)) (xhrRequests (self w)))
                               (<[Segment.id (l_segment l)
                                  := now + httpFailedSegmentTimeout settings]>
                                  (failedSegments (self w))))])))
    as Hfail.
  { intros error x0 w0 Hx0 Hself Htrace.
    rewrite (segmentFailure_ok _ _ _ _ _ _ _ Hx0), Hself, Htrace.
    eexists _, _. split; [|reflexivity]. done. }
  destruct signal as [loaded computable total|status response responseURL| | |];
    cbn [failure_cause deliver] in *.
  - discriminate.
  - case_bool_decide as Hs; [discriminate|]. injection Hc as <-.
    unfold mbind, M_bind, xhr_update, modify.
    set (w0 := mkWorld (self w) (alter (xhr_respond status response responseURL) h (heap w))
                       (trace w)).
    assert (heap w0 !! h = Some (xhr_respond status response responseURL x)) as Hx'
      by (cbn; by rewrite list_lookup_alter_eq, Hx).
    unfold onLoad, mbind, M_bind.
    rewrite (xhr_read_ok _ _ _ Hx'), (listeners_read_ok _ _ l _ Hx' Hl).
    cbn [x_status xhr_respond].
    rewrite bool_decide_eq_true_2 by lia.
    eapply Hfail; [exact Hx'|done|done].
  - injection Hc as <-. unfold onError, mbind, M_bind.
    rewrite (listeners_read_ok _ _ _ _ Hx Hl). by eapply Hfail.
  - injection Hc as <-. unfold onTimeout, mbind, M_bind.
    rewrite (listeners_read_ok _ _ _ _ Hx Hl). by eapply Hfail.
  - destruct (l_awaiting l) as [data|] eqn:Ha; [|discriminate].
    destruct (segmentValidator settings) as [validator|] eqn:Hv; [|discriminate].
    destruct (validator _ _) as [error|] eqn:He; [|discriminate].
    injection Hc as <-.
    unfold segmentDownloadFinished_resume, mbind, M_bind.
    rewrite (listeners_read_ok _ _ _ _ Hx Hl), Ha, Hv.
    unfold mbind, M_bind, xhr_update, modify. rewrite He.
    eapply Hfail; [|done|done]. cbn. rewrite list_lookup_alter_eq, Hx. done.
Qed.

(** C2: when ["load"] arrives with a status outside 200..299, or ["error"]
    or ["timeout"] fires, or the validator rejects the payload, the adapter
    deletes the segment from [xhrRequests], sets the segment's entry of
    [failedSegments] to [now + httpFailedSegmentTimeout], and emits
    ["segment-error"] and nothing else; in particular a rejected payload is
    never reported by ["segment-loaded"]. *)
Theorem failure_blacklists_and_reports (settings : Settings) (now : Z) (h : nat)
    (x : Xhr) (l : Listeners) (signal : Signal) (cause : Cause) (w : World) :
  heap w !! h = Some x →
  x_listeners x = Some l →
  failure_cause settings l signal = Some cause →
  let w' := exec (deliver settings now h signal) w in
  let id := Segment.id (l_segment l) in
  outcome (deliver settings now h signal) w = Ok ()
  ∧ xhrRequests (self w') = delete id (xhrRequests (self w))
  ∧ outcome (isDownloading (l_segment l)) w' = Ok false
  ∧ outcome (isFailed now (l_segment l)) w'
    = Ok (bool_decide (httpFailedSegmentTimeout settings > 0))
  ∧ failedSegments (self w') !! id = Some (now + httpFailedSegmentTimeout settings)
  ∧ ∃ segment',
      Segment.id segment' = id
      ∧ trace w' = trace w ++ [Emitted (SegmentError segment' cause) (self w')].
Proof.
  intros Hx Hl Hc. cbn zeta.
  destruct (deliver_failed settings now h x l signal cause w Hx Hl Hc)
    as (segment' & heap' & Hid & Hrun).
  unfold exec, outcome. rewrite Hrun.
  cbn [fst snd self heap trace xhrRequests failedSegments].
  split; [done|]. split; [done|]. split.
  { unfold isDownloading, gets. cbn. by rewrite lookup_delete_eq. }
  split.
  { unfold isFailed, gets. cbn. rewrite lookup_insert_eq. f_equal.
    apply bool_decide_ext. lia. }
  split; [apply lookup_insert_eq|]. by exists segment'.
Qed.

Lemma failure_blacklists_and_reports_witness :
  ∃ x l,
    heap Examples.loaded_bad !! 0%nat = Some x
    ∧ x_listeners x = Some l
    ∧ failure_cause Examples.validating l Settled = Some (ValidatorError "no sync byte")
    ∧ failedSegments
        (self (exec (deliver Examples.validating 50 0 Settled) Examples.loaded_bad)) !! "s0"
      = Some 10050
    ∧ ∃ segment',
        trace (exec (deliver Examples.validating 50 0 Settled) Examples.loaded_bad)
        = trace Examples.loaded_bad
          ++ [Emitted (SegmentError segment' (ValidatorError "no sync byte"))
                (self (exec (deliver Examples.validating 50 0 Settled) Examples.loaded_bad))].
Proof.
  eexists _, _.
  split; [reflexivity|]. split; [reflexivity|].
  lazymatch goal with
  | |- failure_cause _ ?l _ = _ ∧ _ =>
      pose proof (λ x Hx Hl, failure_blacklists_and_reports Examples.validating 50 0 x l
                    Settled (ValidatorError "no sync byte") Examples.loaded_bad Hx Hl eq_refl)
        as H
  end.
  edestruct H as (_ & _ & _ & _ & Hf & segment' & _ & Ht); [reflexivity..|].
  split; [reflexivity|]. split; [exact Hf|]. exists segment'. exact Ht.
Defined.

(** ** Resuming a partial download *)

Lemma sum_byteLength_from (pieces : list Bytes) (n : Z) :
  foldl (λ bytesDownloaded piece, bytesDownloaded + byteLength piece) n pieces
  = n + byteLength (concat pieces).
Proof.
  revert n. induction pieces as [|piece pieces IH]; intros n; cbn.
  - unfold byteLength. cbn. lia.
  - rewrite IH. unfold byteLength. rewrite length_app. lia.
Qed.

Lemma sum_byteLength_concat (pieces : list Bytes) :
  sum_byteLength pieces = byteLength (concat pieces).
Proof. unfold sum_byteLength. by rewrite sum_byteLength_from. Qed.

Lemma Uint8Array_set_fits (written : Bytes) (source : Bytes) (free : nat) (w : World) :
  (length source ≤ free)%nat →
  Uint8Array_set (written ++ replicate free Byte.x00) source (byteLength written) w
  = (Ok (written ++ source ++ replicate (free - length source) Byte.x00), w).
Proof.
  intros Hfit. unfold Uint8Array_set, byteLength.
  rewrite bool_decide_eq_true_2
    by (rewrite length_app, length_replicate; lia).
  rewrite Nat2Z.id, take_app_length, drop_app_add, drop_replicate. done.
Qed.

(** The loop of the ["load"] listener that copies the pieces into the new
    array: with [written] already in place and [free] zero bytes after it,
    the pieces land one after the other behind [written]. *)
Lemma reassemble_loop (pieces : list Bytes) :
  ∀ (acc : M (Bytes * Z)) (written : Bytes) (free : nat),
    (∀ w, acc w = (Ok (written ++ replicate free Byte.x00, byteLength written), w)) →
    (length (concat pieces) ≤ free)%nat →
    ∀ w,
      foldl (λ (acc : M (Bytes * Z)) piece,
               '(segmentData, offset) ← acc;
               segmentData ← Uint8Array_set segmentData piece offset;
               mret (segmentData, offset + byteLength piece))
            acc pieces w
      = (Ok ((written ++ concat pieces)
             ++ replicate (free - length (concat pieces)) Byte.x00,
             byteLength (written ++ concat pieces)), w).
Proof.
  induction pieces as [|piece pieces IH]; intros acc written free Hacc Hfit w; cbn.
  - rewrite Hacc, app_nil_r, Nat.sub_0_r. done.
  - cbn in Hfit. rewrite length_app in Hfit.
    rewrite (IH _ (written ++ piece) (free - length piece)%nat).
    + rewrite <- !app_assoc, length_app.
      by replace (free - length piece - length (concat pieces))%nat
        with (free - (length piece + length (concat pieces)))%nat by lia.
    + intros w0. unfold mbind, M_bind. rewrite Hacc.
      rewrite Uint8Array_set_fits by lia. unfold mret, M_ret.
      rewrite <- app_assoc. unfold byteLength. rewrite length_app, Nat2Z.inj_add. done.
    + lia.
Qed.

Lemma reassemble_concat (downloadedPieces : list Bytes) (data : Bytes) (w : World) :
  reassemble downloadedPieces data w = (Ok (concat downloadedPieces ++ data), w).
Proof.
  unfold reassemble, mbind at 1, M_bind at 1.
  assert (Uint8Array_new (sum_byteLength downloadedPieces + byteLength data)
          = [] ++ replicate (length (concat downloadedPieces) + length data) Byte.x00) as ->.
  { rewrite sum_byteLength_concat. unfold Uint8Array_new, byteLength.
    by rewrite <- Nat2Z.inj_add, Nat2Z.id. }
  rewrite (reassemble_loop downloadedPieces _ []
             (length (concat downloadedPieces) + length data)); [|done|lia].
  cbn [app]. replace (length (concat downloadedPieces) + length data
                      - length (concat downloadedPieces))%nat
    with (length data) by lia.
  rewrite Uint8Array_set_fits by lia.
  rewrite Nat.sub_diag. cbn. by rewrite app_nil_r.
Qed.

(** ** Arrival of the response *)

Lemma load_success (settings : Settings) (now : Z) (h : nat) (x : Xhr) (l : Listeners)
    (status : Z) (response : Bytes) (responseURL : option string) (w : World) :
  heap w !! h = Some x →
  x_listeners x = Some l →
  200 ≤ status < 300 →
  let data := load_data l status response in
  let segment' := Segment.with_responseUrl responseURL (l_segment l) in
  let heap' :=
    alter (xhr_listeners (fmap (l_with_segment segment'))) h
          (alter (xhr_respond status response responseURL) h (heap w)) in
  let written :=
    mkAdapter (alter (record_responseUrl h responseURL) (Segment.id (l_segment l))
                     (xhrRequests (self w)))
              (failedSegments (self w)) in
  let accepted :=
    mkAdapter (delete (Segment.id (l_segment l)) (xhrRequests (self w)))
              (failedSegments (self w)) in
  deliver settings now h (Load status response responseURL) w
  = (Ok (),
     match segmentValidator settings with
     | Some _ =>
         mkWorld written
                 (alter (xhr_listeners (fmap (l_with_awaiting (Some data)))) h heap')
                 (trace w ++ [ValidatorCalled (Segment.with_data data segment') "http"])
     | None =>
         mkWorld accepted heap' (trace w ++ [Emitted (SegmentLoaded segment' data) accepted])
     end).
Proof.
  intros Hx Hl Hs. cbn zeta.
  unfold deliver, mbind, M_bind, xhr_update, modify.
  set (w0 := mkWorld (self w) (alter (xhr_respond status response responseURL) h (heap w))
                     (trace w)).
  assert (heap w0 !! h = Some (xhr_respond status response responseURL x)) as Hx'
    by (cbn; by rewrite list_lookup_alter_eq, Hx).
  unfold onLoad, mbind, M_bind.
  rewrite (xhr_read_ok _ _ _ Hx'), (listeners_read_ok _ _ l _ Hx' Hl).
  cbn [x_status x_response xhr_respond].
  rewrite bool_decide_eq_false_2 by lia.
  assert (∀ data,
            segmentDownloadFinished settings (l_segment l) data h w0
            = (Ok (),
               match segmentValidator settings with
               | Some _ =>
                   mkWorld
                     (mkAdapter
                        (alter (record_responseUrl h responseURL) (Segment.id (l_segment l))
                               (xhrRequests (self w)))
                        (failedSegments (self w)))
                     (alter (xhr_listeners (fmap (l_with_awaiting (Some data)))) h
                        (alter (xhr_listeners
                                  (fmap (l_with_segment
                                           (Segment.with_responseUrl responseURL (l_segment l)))))
                               h (heap w0)))
                     (trace w
                      ++ [ValidatorCalled
                            (Segment.with_data data
                               (Segment.with_responseUrl responseURL (l_segment l))) "http"])
               | None =>
                   mkWorld
                     (mkAdapter (delete (Segment.id (l_segment l)) (xhrRequests (self w)))
                                (failedSegments (self w)))
                     (alter (xhr_listeners
                               (fmap (l_with_segment
                                        (Segment.with_responseUrl responseURL (l_segment l)))))
                            h (heap w0))
                     (trace w
                      ++ [Emitted
                            (SegmentLoaded
                               (Segment.with_responseUrl responseURL (l_segment l)) data)
                            (mkAdapter
                               (delete (Segment.id (l_segment l)) (xhrRequests (self w)))
                               (failedSegments (self w)))])
               end)) as Hfin.
  { intros data. unfold segmentDownloadFinished, mbind, M_bind.
    rewrite (xhr_read_ok _ _ _ Hx'). cbn [x_responseURL xhr_respond].
    unfold segmentDownloadFinished_accepted, mbind, M_bind, xhr_update, set_xhrRequests,
      emit, call_out, modify.
    destruct (segmentValidator settings);
      cbn [self heap trace xhrRequests failedSegments Segment.id Segment.with_responseUrl];
      [done|]. by rewrite delete_alter_eq. }
  unfold load_data.
  destruct (l_downloadedPieces l) as [pieces|]; [case_bool_decide|];
    rewrite ?reassemble_concat; apply Hfin.
Qed.

Lemma settled_accepted (settings : Settings) (now : Z) (h : nat) (x : Xhr) (l : Listeners)
    (data : Bytes) (validator : Segment.t → string → option string) (w : World) :
  heap w !! h = Some x →
  x_listeners x = Some l →
  l_awaiting l = Some data →
  segmentValidator settings = Some validator →
  validator (Segment.with_data data (l_segment l)) "http" = None →
  let accepted :=
    mkAdapter (delete (Segment.id (l_segment l)) (xhrRequests (self w)))
              (failedSegments (self w)) in
  deliver settings now h Settled w
  = (Ok (), mkWorld accepted (alter (xhr_listeners (fmap (l_with_awaiting None))) h (heap w))
                    (trace w ++ [Emitted (SegmentLoaded (l_segment l) data) accepted])).
Proof.
  intros Hx Hl Ha Hv Hok.
  unfold deliver, segmentDownloadFinished_resume, mbind, M_bind.
  rewrite (listeners_read_ok _ _ _ _ Hx Hl), Ha, Hv.
  unfold mbind, M_bind, xhr_update, modify. by rewrite Hok.
Qed.



(** ** Progress *)

Lemma onProgress_ok (h : nat) (x : Xhr) (l : Listeners) (loaded : Z)
    (lengthComputable : bool) (total : Z) (w : World) :
  heap w !! h = Some x →
  x_listeners x = Some l →
  onProgress h loaded lengthComputable total w
  = (Ok (),
     mkWorld (self w) (alter (xhr_listeners (fmap (l_with_prev loaded))) h (heap w))
             (trace w
              ++ Emitted (BytesDownloaded (l_segment l) (loaded - prevBytesLoaded l)) (self w)
                 :: if lengthComputable
                    then [Emitted (SegmentSize (l_segment l) total) (self w)]
                    else [])).
Proof.
  intros Hx Hl. unfold onProgress, mbind, M_bind.
  rewrite (listeners_read_ok _ _ _ _ Hx Hl).
  unfold mbind, M_bind, emit, xhr_update, modify. cbn [heap self trace].
  destruct lengthComputable; cbn [heap self trace]; [|done].
  by rewrite <- app_assoc.
Qed.

Lemma bytes_reported_app (t1 t2 : list Action) :
  bytes_reported (t1 ++ t2) = bytes_reported t1 + bytes_reported t2.
Proof.
  induction t1 as [|a t1 IH]; [done|]. cbn.
  destruct a as [e ?| | |]; [destruct e|..]; lia.
Qed.

Lemma sizes_reported_app (t1 t2 : list Action) :
  sizes_reported (t1 ++ t2) = (sizes_reported t1 + sizes_reported t2)%nat.
Proof.
  induction t1 as [|a t1 IH]; [done|]. cbn.
  destruct a as [e ?| | |]; [destruct e|..]; lia.
Qed.

Lemma progress_events_trace (settings : Settings) (h : nat) (events : list (Z * bool * Z)) :
  ∀ (x : Xhr) (l : Listeners) (w : World),
    heap w !! h = Some x →
    x_listeners x = Some l →
    let w' := calls settings (progress_events h events) w in
    self w' = self w
    ∧ ∃ new,
        trace w' = trace w ++ new
        ∧ bytes_reported new = last_loaded (prevBytesLoaded l) events - prevBytesLoaded l
        ∧ sizes_reported new = length (List.filter (λ event, event.1.2) events).
Proof.
  induction events as [|[[loaded lengthComputable] total] events IH];
    intros x l w Hx Hl; cbn zeta.
  - cbn. split; [done|]. exists []. rewrite app_nil_r. split; [done|].
    unfold last_loaded. cbn. split; [lia|done].
  - unfold progress_events, calls. cbn [map foldl fst snd call deliver].
    unfold exec at 2 4. rewrite (onProgress_ok _ _ _ _ _ _ _ Hx Hl).
    cbn [snd].
    set (w1 := mkWorld _ _ _).
    assert (heap w1 !! h = Some (xhr_listeners (fmap (l_with_prev loaded)) x)) as Hx1
      by (cbn; by rewrite list_lookup_alter_eq, Hx).
    assert (x_listeners (xhr_listeners (fmap (l_with_prev loaded)) x)
            = Some (l_with_prev loaded l)) as Hl1 by (cbn; by rewrite Hl).
    destruct (IH _ _ w1 Hx1 Hl1) as (Hself & new & Htrace & Hbytes & Hsizes).
    fold (progress_events h events). fold (calls settings (progress_events h events) w1).
    split; [by rewrite Hself|].
    eexists. split; [rewrite Htrace; cbn [trace w1]; by rewrite <- app_assoc|].
    rewrite bytes_reported_app, sizes_reported_app, Hbytes, Hsizes.
    cbn [prevBytesLoaded l_with_prev last_loaded foldl fst snd List.filter].
    unfold last_loaded. split.
    + destruct lengthComputable; cbn; lia.
    + destruct lengthComputable; cbn; lia.
Qed.

(** C8, as stated, fails: two ["progress"] events of one download that both
    report a computable length emit ["segment-size"] twice, not once. *)
Lemma segment_size_emitted_twice :
  sizes_reported
    (trace (calls Examples.plain
              (progress_events 0 [(100, true, 300); (250, true, 300)]) Examples.started))
  = 2%nat.
Proof. reflexivity. Qed.

(** C8, amended: every ["progress"] event emits ["bytes-downloaded"] with
    the bytes received since the previous ["progress"] event of that request
    (since the start for the first one), so the counts of a run of events
    add up to the last [loaded]; and every ["progress"] event whose length is
    computable also emits ["segment-size"] with the event's [total], once per
    such event and therefore possibly several times per download. *)
Theorem progress_reports_increments (settings : Settings) (h : nat) (x : Xhr)
    (l : Listeners) (w : World) :
  heap w !! h = Some x →
  x_listeners x = Some l →
  (∀ now loaded lengthComputable total,
     let w' := exec (deliver settings now h (Progress loaded lengthComputable total)) w in
     trace w'
     = trace w
       ++ Emitted (BytesDownloaded (l_segment l) (loaded - prevBytesLoaded l)) (self w)
          :: (if lengthComputable
              then [Emitted (SegmentSize (l_segment l) total) (self w)]
              else [])
     ∧ heap w' !! h = Some (xhr_listeners (λ _, Some (l_with_prev loaded l)) x))
  ∧ (∀ events,
       let w' := calls settings (progress_events h events) w in
       ∃ new,
         trace w' = trace w ++ new
         ∧ bytes_reported new = last_loaded (prevBytesLoaded l) events - prevBytesLoaded l
         ∧ sizes_reported new = length (List.filter (λ event, event.1.2) events)).
Proof.
  intros Hx Hl. split.
  - intros now loaded lengthComputable total. cbn zeta. unfold exec, deliver.
    rewrite (onProgress_ok _ _ _ _ _ _ _ Hx Hl). cbn [snd trace heap].
    split; [done|]. rewrite list_lookup_alter_eq, Hx. cbn.
    f_equal. destruct x. cbn in *. by rewrite Hl.
  - intros events. by destruct (progress_events_trace settings h events x l w Hx Hl) as [_ ?].
Qed.

Lemma progress_reports_increments_witness :
  ∃ x l,
    heap Examples.started !! 0%nat = Some x
    ∧ x_listeners x = Some l
    ∧ ∃ new,
        trace (calls Examples.plain
                 (progress_events 0 [(100, true, 300); (250, true, 300)]) Examples.started)
        = trace Examples.started ++ new
        ∧ bytes_reported new = 250
        ∧ sizes_reported new = 2%nat.
Proof.
  eexists _, _. split; [reflexivity|]. split; [reflexivity|].
  lazymatch goal with
  | |- ∃ new, trace (calls _ (progress_events _ ?events) _) = _ ∧ _ =>
      edestruct (λ x l Hx Hl,
                   proj2 (progress_reports_increments Examples.plain 0 x l Examples.started
                            Hx Hl) events)
        as (new & Ht & Hb & Hs); [reflexivity..|]
  end.
  exists new. split; [exact Ht|]. split; [exact Hb | exact Hs].
Defined.

(** ** What a call changes in the adapter's maps *)

Lemma listening_for_Some (w : World) (h : nat) (id : string) :
  listening_for w h = Some id
  ↔ ∃ x l, heap w !! h = Some x ∧ x_listeners x = Some l ∧ Segment.id (l_segment l) = id.
Proof.
  unfold listening_for. split.
  - destruct (heap w !! h) as [x|]; [|done]. cbn.
    destruct (x_listeners x) as [l|] eqn:Hl; [|done]. cbn. intros [= <-]. eauto.
  - intros (x & l & -> & Hl & <-). cbn. by rewrite Hl.
Qed.

Lemma listeners_read_unheard (h : nat) (w : World) :
  listening_for w h = None → ∃ message, listeners_read h w = (Throw message, w).
Proof.
  unfold listening_for, listeners_read, xhr_read, mbind, M_bind, throw.
  destruct (heap w !! h) as [x|]; cbn; [|eauto].
  destruct (x_listeners x); cbn; [done|eauto].
Qed.

Lemma deliver_unheard (settings : Settings) (now : Z) (h : nat) (signal : Signal)
    (w : World) :
  listening_for w h = None →
  self (exec (deliver settings now h signal) w) = self w.
Proof.
  intros Hnone.
  destruct (listeners_read_unheard h w Hnone) as [message Hread].
  destruct signal as [loaded computable total|status response responseURL| | |];
    unfold exec, deliver, onProgress, onError, onTimeout, segmentDownloadFinished_resume;
    unfold mbind, M_bind; rewrite ?Hread; try done.
  unfold xhr_update, modify.
  set (w0 := mkWorld (self w) (alter (xhr_respond status response responseURL) h (heap w))
                     (trace w)).
  assert (listening_for w0 h = None) as Hnone0.
  { unfold listening_for in *. cbn. rewrite list_lookup_alter_eq.
    destruct (heap w !! h) as [x|]; cbn in *; [|done].
    by destruct (x_listeners x). }
  destruct (listeners_read_unheard h w0 Hnone0) as [message0 Hread0].
  unfold onLoad, mbind, M_bind, xhr_read.
  destruct (heap w0 !! h); [|done]. by rewrite Hread0.
Qed.

(** A signal leaves the maps alone, or deletes the segment it is for from
    [xhrRequests] and possibly sets that segment's entry of
    [failedSegments], or only writes [responseUrl] into the segment of the
    request's record. *)
Lemma deliver_self (settings : Settings) (now : Z) (h : nat) (signal : Signal) (w : World) :
  let w' := exec (deliver settings now h signal) w in
  self w' = self w
  ∨ ∃ id,
      listening_for w h = Some id
      ∧ ((xhrRequests (self w') = delete id (xhrRequests (self w))
          ∧ (failedSegments (self w') = failedSegments (self w)
             ∨ failedSegments (self w')
               = <[id := now + httpFailedSegmentTimeout settings]> (failedSegments (self w))))
         ∨ ∃ responseURL,
             self w'
             = mkAdapter (alter (record_responseUrl h responseURL) id (xhrRequests (self w)))
                         (failedSegments (self w))).
Proof.
  cbn zeta. destruct (listening_for w h) as [id|] eqn:Hid;
    [|left; by apply deliver_unheard].
  apply listening_for_Some in Hid as (x & l & Hx & Hl & <-).
  destruct (failure_cause settings l signal) as [cause|] eqn:Hc.
  { destruct (deliver_failed settings now h x l signal cause w Hx Hl Hc)
      as (segment' & heap' & _ & Hrun).
    right. eexists. unfold exec. rewrite Hrun. cbn. eauto. }
  destruct signal as [loaded computable total|status response responseURL| | |];
    cbn [failure_cause] in Hc; try discriminate.
  - left. unfold exec, deliver. by rewrite (onProgress_ok _ _ _ _ _ _ _ Hx Hl).
  - case_bool_decide as Hs; [|discriminate]. unfold exec.
    rewrite (load_success _ _ _ _ _ _ _ _ _ Hx Hl Hs).
    right. eexists. split; [done|].
    destruct (segmentValidator settings); cbn; eauto.
  - unfold exec, deliver, segmentDownloadFinished_resume, mbind, M_bind.
    rewrite (listeners_read_ok _ _ _ _ Hx Hl).
    destruct (l_awaiting l) as [data|] eqn:Ha; [|by left].
    destruct (segmentValidator settings) as [validator|] eqn:Hv; [|by left].
    destruct (validator (Segment.with_data data (l_segment l)) "http") eqn:He;
      [discriminate|].
    right. eexists. cbn. eauto.
Qed.

Lemma destroy_self (w : World) :
  self (exec destroy w) = mkAdapter ∅ (failedSegments (self w)).
Proof. reflexivity. Qed.

Lemma lookup_purged (now : Z) (failed : gmap string Z) (id : string) :
  purged now failed !! id
  = match failed !! id with
    | Some time => if bool_decide (time < now) then None else Some time
    | None => None
    end.
Proof.
  unfold purged. destruct (failed !! id) as [time|] eqn:E.
  - case_bool_decide.
    + apply map_lookup_filter_None. right. intros time' E'. cbn. naive_solver.
    + apply map_lookup_filter_Some. done.
  - apply map_lookup_filter_None. by left.
Qed.

Lemma updatePriority_self (settings : Settings) (now : Z) (segment : Segment.t) (w : World) :
  let w' := exec (updatePriority settings now segment) w in
  self w' = self w
  ∨ ∃ request,
      self w'
      = mkAdapter (<[Segment.id segment := request]> (xhrRequests (self w)))
                  (purged now (failedSegments (self w))).
Proof.
  cbn zeta. destruct (xhrRequests (self w) !! Segment.id segment) as [request|] eqn:E.
  - destruct (decide (must_restart settings segment request)) as [Hr|Hr].
    + right. unfold exec. rewrite (updatePriority_restart _ _ _ _ _ E Hr).
      unfold world_started. cbn. rewrite insert_delete_eq. eauto.
    + left. unfold exec. by rewrite (updatePriority_keep _ _ _ _ _ E Hr).
  - left. unfold exec. by rewrite (updatePriority_unknown settings now segment w E).
Qed.

Lemma download_self (settings : Settings) (now : Z) (segment : Segment.t)
    (downloadedPieces : option (list Bytes)) (w : World) :
  let w' := exec (download settings now segment downloadedPieces) w in
  self w' = self w
  ∨ ∃ request,
      self w'
      = mkAdapter (<[Segment.id segment := request]> (xhrRequests (self w)))
                  (purged now (failedSegments (self w)))
      ∧ xhrRequests (self w) !! Segment.id segment = None.
Proof.
  cbn zeta. destruct (xhrRequests (self w) !! Segment.id segment) as [request|] eqn:E.
  - left. unfold exec, download, isDownloading, gets, mbind, M_bind. by rewrite E.
  - right. unfold exec. rewrite (download_not_in_flight _ _ _ _ _ E).
    unfold world_started. cbn. eauto.
Qed.

Lemma abort_self (segment : Segment.t) (w : World) :
  self (exec (abort segment) w)
  = mkAdapter (delete (Segment.id segment) (xhrRequests (self w))) (failedSegments (self w)).
Proof.
  destruct (xhrRequests (self w) !! Segment.id segment) as [request|] eqn:E; unfold exec.
  - by rewrite (abort_downloading _ _ _ E).
  - rewrite (abort_not_downloading _ _ E). cbn. rewrite delete_id by done. by destruct w as [[]].
Qed.

(** A request in flight stays as it is under every call that is neither a
    signal for its segment nor a cancellation of it. *)
Lemma call_keeps_request (settings : Settings) (now : Z) (c : Call) (id : string)
    (request : Request) (w : World) :
  xhrRequests (self w) !! id = Some request →
  ¬ cancels id w c →
  xhrRequests (self (exec (call settings now c) w)) !! id = Some request.
Proof.
  intros E Hc. destruct c as [segment pieces|segment|segment| |h signal]; cbn [call cancels] in *.
  - destruct (download_self settings now segment pieces w) as [->|(r & -> & Hnew)]; [done|].
    cbn. rewrite lookup_insert_ne; [done|]. intros <-. congruence.
  - destruct (updatePriority_self settings now segment w) as [->|(r & ->)]; [done|].
    cbn. by rewrite lookup_insert_ne.
  - rewrite abort_self. cbn. by rewrite lookup_delete_ne.
  - done.
  - destruct (deliver_self settings now h signal w)
      as [->|(id' & Hid' & [[-> _]|[u ->]])]; [done| |].
    + rewrite lookup_delete_ne; [done|]. intros <-. done.
    + cbn. rewrite lookup_alter_ne; [done|]. intros <-. done.
Qed.

(** The blacklist entry of a segment stays as it is under every call that
    is not a signal for that segment, unless the call purges it, which
    happens only to an entry whose time is below the clock. *)
Lemma call_blacklist (settings : Settings) (now : Z) (c : Call) (id : string) (w : World) :
  ¬ signals id w c →
  let before := failedSegments (self w) !! id in
  let after := failedSegments (self (exec (call settings now c) w)) !! id in
  after = before ∨ (after = None ∧ ∃ time, before = Some time ∧ time < now).
Proof.
  assert (∀ failed : gmap string Z,
            purged now failed !! id = failed !! id
            ∨ (purged now failed !! id = None
               ∧ ∃ time, failed !! id = Some time ∧ time < now)) as Hpurge.
  { intros failed. rewrite lookup_purged. destruct (failed !! id) as [time|]; [|by left].
    case_bool_decide; [right|left]; eauto. }
  intros Hc. cbn zeta.
  destruct c as [segment pieces|segment|segment| |h signal]; cbn [call signals] in *.
  - destruct (download_self settings now segment pieces w) as [->|(r & -> & _)]; [by left|].
    apply Hpurge.
  - destruct (updatePriority_self settings now segment w) as [->|(r & ->)]; [by left|].
    apply Hpurge.
  - rewrite abort_self. by left.
  - rewrite destroy_self. by left.
  - destruct (deliver_self settings now h signal w)
      as [->|(id' & Hid' & [[_ [->| ->]]|[u ->]])]; [by left..| |by left].
    left. rewrite lookup_insert_ne; [done|]. intros <-. done.
Qed.

(** ** Request objects that a call leaves alone *)

Lemma confined_ret {A} (h : nat) (a : A) : confined h (mret a : M A).
Proof. by intros w k _. Qed.

Lemma confined_throw {A} (h : nat) (message : string) : confined h (throw message : M A).
Proof. by intros w k _. Qed.

Lemma confined_bind {A B} (h : nat) (m : M A) (f : A → M B) :
  confined h m → (∀ a, confined h (f a)) → confined h (m ≫= f).
Proof.
  intros Hm Hf w k Hk. unfold mbind, M_bind.
  specialize (Hm w k Hk). destruct (m w) as [[a|e] w1]; cbn in *; [|done].
  by rewrite (Hf a w1 k Hk).
Qed.

Lemma confined_xhr_update (h : nat) (f : Xhr → Xhr) : confined h (xhr_update h f).
Proof. intros w k Hk. cbn. by rewrite list_lookup_alter_ne. Qed.

Lemma confined_xhr_read (h h' : nat) : confined h (xhr_read h').
Proof. intros w k _. unfold xhr_read. by destruct (heap w !! h'). Qed.

Lemma confined_listeners_read (h h' : nat) : confined h (listeners_read h').
Proof.
  apply confined_bind; [apply confined_xhr_read|]. intros x.
  destruct (x_listeners x); [apply confined_ret | apply confined_throw].
Qed.

Lemma confined_emit (h : nat) (e : Event) : confined h (emit e).
Proof. by intros w k _. Qed.

Lemma confined_call_out (h : nat) (a : Action) : confined h (call_out a).
Proof. by intros w k _. Qed.

Lemma confined_set_xhrRequests (h : nat) f : confined h (set_xhrRequests f).
Proof. by intros w k _. Qed.

Lemma confined_set_failedSegments (h : nat) f : confined h (set_failedSegments f).
Proof. by intros w k _. Qed.

Lemma confined_reassemble (h : nat) (pieces : list Bytes) (data : Bytes) :
  confined h (reassemble pieces data).
Proof. intros w k _. by rewrite reassemble_concat. Qed.

Create HintDb confined.

#[local] Hint Resolve confined_ret confined_throw confined_xhr_update confined_xhr_read
  confined_listeners_read confined_emit confined_call_out confined_set_xhrRequests
  confined_set_failedSegments confined_reassemble : confined.

Ltac confined :=
  repeat first
    [ progress auto with confined
    | apply confined_bind; [|intros ?]
    | case_match ].

Lemma confined_segmentFailure (settings : Settings) (now : Z) (segment : Segment.t)
    (error : Cause) (h : nat) : confined h (segmentFailure settings now segment error h).
Proof. unfold segmentFailure. confined. Qed.

Lemma confined_deliver (settings : Settings) (now : Z) (h : nat) (signal : Signal) :
  confined h (deliver settings now h signal).
Proof.
  pose proof (confined_segmentFailure settings now) as Hfail.
  destruct signal; unfold deliver, onProgress, onLoad, onError, onTimeout,
    segmentDownloadFinished_resume, segmentDownloadFinished,
    segmentDownloadFinished_accepted; confined.
Qed.

Lemma listening_for_listeners_at (w : World) (h : nat) :
  listening_for w h = (λ l, Segment.id (l_segment l)) <$> listeners_at w h.
Proof.
  unfold listening_for, listeners_at. destruct (heap w !! h) as [x|]; [|done]. cbn.
  by destruct (x_listeners x).
Qed.

Lemma listeners_at_heap (w w' : World) (h : nat) :
  heap w' !! h = heap w !! h → listeners_at w' h = listeners_at w h.
Proof. unfold listeners_at. by intros ->. Qed.

Lemma listeners_at_aborted (s : Adapter) (t : list Action) (w : World) (k h : nat)
    (more : list Xhr) :
  is_Some (heap w !! h) →
  listeners_at (mkWorld s (alter xhr_abort k (heap w) ++ more) t) h = listeners_at w h.
Proof.
  intros [x Hx]. unfold listeners_at. cbn.
  rewrite lookup_app_l by (rewrite length_alter; by eapply lookup_lt_Some).
  destruct (decide (k = h)) as [->|Hk].
  - rewrite list_lookup_alter_eq, Hx. done.
  - by rewrite list_lookup_alter_ne.
Qed.

Lemma call_keeps_listeners (settings : Settings) (now : Z) (c : Call) (id : string)
    (h : nat) (w : World) :
  listening_for w h = Some id →
  ¬ cancels id w c →
  listeners_at (exec (call settings now c) w) h = listeners_at w h.
Proof.
  intros Hid Hc.
  assert (is_Some (heap w !! h)) as Hh.
  { apply listening_for_Some in Hid as (x & _ & -> & _). eauto. }
  destruct c as [segment pieces|segment|segment| |h' signal]; cbn [call cancels] in *.
  - destruct (xhrRequests (self w) !! Segment.id segment) as [request|] eqn:E.
    + assert (isDownloading segment w = (Ok true, w)) as Hd
        by (apply isDownloading_true; rewrite E; eauto).
      unfold exec, download, mbind, M_bind. by rewrite Hd.
    + unfold exec. rewrite (download_not_in_flight _ _ _ _ _ E).
      apply listeners_at_heap. cbn. destruct Hh as [x Hx].
      apply lookup_app_l. by eapply lookup_lt_Some.
  - destruct (xhrRequests (self w) !! Segment.id segment) as [request|] eqn:E.
    + destruct (decide (must_restart settings segment request)) as [Hr|Hr]; unfold exec.
      * rewrite (updatePriority_restart _ _ _ _ _ E Hr). unfold world_started.
        cbn [snd heap self trace]. by apply listeners_at_aborted.
      * by rewrite (updatePriority_keep _ _ _ _ _ E Hr).
    + unfold exec. by rewrite (updatePriority_unknown _ _ _ _ E).
  - destruct (xhrRequests (self w) !! Segment.id segment) as [request|] eqn:E; unfold exec.
    + rewrite (abort_downloading _ _ _ E). cbn [snd].
      rewrite <- (app_nil_r (alter _ _ _)). by apply listeners_at_aborted.
    + by rewrite (abort_not_downloading _ _ E).
  - done.
  - apply listeners_at_heap. apply confined_deliver. intros ->. done.
Qed.

(** ** Sequences of calls *)

Lemma calls_keep_request (settings : Settings) (cs : list (Z * Call)) :
  ∀ (w : World) (id : string) (request : Request),
    xhrRequests (self w) !! id = Some request →
    never (cancels id) settings cs w →
    xhrRequests (self (calls settings cs w)) !! id = Some request.
Proof.
  induction cs as [|[now c] cs IH]; intros w id request E Hq; [done|].
  destruct Hq as [Hc Hq]. apply (IH _ _ _ (call_keeps_request _ _ _ _ _ _ E Hc) Hq).
Qed.

Lemma calls_keep_listeners (settings : Settings) (cs : list (Z * Call)) :
  ∀ (w : World) (id : string) (h : nat),
    listening_for w h = Some id →
    never (cancels id) settings cs w →
    listeners_at (calls settings cs w) h = listeners_at w h.
Proof.
  induction cs as [|[now c] cs IH]; intros w id h Hid Hq; [done|].
  destruct Hq as [Hc Hq]. cbn in Hc, Hq.
  pose proof (call_keeps_listeners settings now c id h w Hid Hc) as Hl.
  change (calls settings ((now, c) :: cs) w)
    with (calls settings cs (exec (call settings now c) w)).
  rewrite (IH _ id h); [done| |done].
  by rewrite listening_for_listeners_at, Hl, <- listening_for_listeners_at.
Qed.

Lemma clock_monotone_le (t : Z) (cs : list (Z * Call)) (t' : Z) :
  clock_monotone t cs t' → t ≤ t'.
Proof.
  revert t. induction cs as [|c cs IH]; intros t; cbn; [done|].
  intros [H1 H2%IH]. lia.
Qed.

Lemma calls_blacklist_none (settings : Settings) (cs : list (Z * Call)) :
  ∀ (w : World) (id : string),
    failedSegments (self w) !! id = None →
    never (signals id) settings cs w →
    failedSegments (self (calls settings cs w)) !! id = None.
Proof.
  induction cs as [|[now c] cs IH]; intros w id E Hq; [done|].
  destruct Hq as [Hc Hq]. cbn in Hc, Hq. apply IH; [|done].
  destruct (call_blacklist settings now c id w Hc) as [H|[H _]]; [by rewrite <- E|done].
Qed.

(** An entry of the blacklist is still there after calls that are no
    signals for its segment, or it has been purged, and then its time is
    below the clock. *)
Lemma calls_blacklist (settings : Settings) (cs : list (Z * Call)) :
  ∀ (w : World) (t t' : Z) (id : string) (time : Z),
    failedSegments (self w) !! id = Some time →
    never (signals id) settings cs w →
    clock_monotone t cs t' →
    let after := failedSegments (self (calls settings cs w)) !! id in
    after = Some time ∨ (after = None ∧ time < t').
Proof.
  induction cs as [|[now c] cs IH]; intros w t t' id time E Hq Ht; cbn zeta.
  - by left.
  - destruct Hq as [Hc Hq]. destruct Ht as [Hnow Ht]. cbn in Hc, Hq, Hnow, Ht.
    change (calls settings ((now, c) :: cs) w)
      with (calls settings cs (exec (call settings now c) w)).
    destruct (call_blacklist settings now c id w Hc) as [Hsame|[Hgone (time' & E' & Hlt)]].
    + rewrite E in Hsame. by apply (IH _ now t' id time Hsame Hq Ht).
    + right. split; [by apply calls_blacklist_none|].
      rewrite E in E'. injection E' as <-. apply clock_monotone_le in Ht. lia.
Qed.

(** ** The blacklist *)

(** C4: after a download of a segment failed at time [t], and as long as no
    further signal for that segment arrives, [isFailed] answers true at
    every later time before [t + httpFailedSegmentTimeout] and false from
    then on, whatever else the adapter is asked to do in between.  Every
    [download] that starts a new request (the segment is not in flight
    already) first purges the blacklist: the entries whose time is below the
    clock are gone before ["segment-start-load"] is emitted, and the others
    are kept. *)
Theorem blacklist_expires_and_is_purged (settings : Settings) :
  (∀ t h x l signal cause w cs t' segment,
     heap w !! h = Some x →
     x_listeners x = Some l →
     failure_cause settings l signal = Some cause →
     Segment.id segment = Segment.id (l_segment l) →
     let failed := exec (deliver settings t h signal) w in
     never (signals (Segment.id segment)) settings cs failed →
     clock_monotone t cs t' →
     outcome (isFailed t' segment) (calls settings cs failed)
     = Ok (bool_decide (t' < t + httpFailedSegmentTimeout settings)))
  ∧ (∀ now segment downloadedPieces w,
       isDownloading segment w = (Ok false, w) →
       let w' := exec (download settings now segment downloadedPieces) w in
       (∀ id time, failedSegments (self w') !! id = Some time → ¬ time < now)
       ∧ (∀ id time, failedSegments (self w) !! id = Some time → ¬ time < now →
                     failedSegments (self w') !! id = Some time)
       ∧ ∃ seen rest,
           trace w' = trace w ++ Emitted (SegmentStartLoad segment) seen :: rest
           ∧ failedSegments seen = failedSegments (self w')).
Proof.
  split.
  - intros t h x l signal cause w cs t' segment Hx Hl Hc Hid failed Hq Ht.
    destruct (deliver_failed settings t h x l signal cause w Hx Hl Hc)
      as (segment' & heap' & _ & Hrun).
    assert (failedSegments (self failed) !! Segment.id segment
            = Some (t + httpFailedSegmentTimeout settings)) as E.
    { subst failed. unfold exec. rewrite Hrun, Hid. cbn. apply lookup_insert_eq. }
    unfold outcome, isFailed, gets. cbn [fst]. f_equal.
    destruct (calls_blacklist settings cs failed t t' _ _ E Hq Ht) as [->|[-> Hlt]].
    + apply bool_decide_ext. lia.
    + symmetry. apply bool_decide_eq_false. lia.
  - intros now segment pieces w E%isDownloading_false. cbn zeta.
    unfold exec. rewrite (download_not_in_flight _ _ _ _ _ E).
    unfold world_started. cbn [snd self failedSegments trace].
    split; [|split].
    + intros id time. rewrite lookup_purged.
      destruct (failedSegments (self w) !! id) as [time'|]; [|done].
      case_bool_decide; [done|]. by intros [= <-].
    + intros id time Hin Hlive. rewrite lookup_purged, Hin.
      by rewrite bool_decide_eq_false_2.
    + eexists _, _. split; [reflexivity|]. done.
Qed.

Lemma blacklist_expires_and_is_purged_witness :
  never (signals "s0") Examples.plain Examples.meanwhile Examples.failed_at_100
  ∧ clock_monotone 100 Examples.meanwhile 10099
  ∧ outcome (isFailed 10099 Examples.s0)
      (calls Examples.plain Examples.meanwhile Examples.failed_at_100) = Ok true
  ∧ clock_monotone 100 Examples.meanwhile 10100
  ∧ outcome (isFailed 10100 Examples.s0)
      (calls Examples.plain Examples.meanwhile Examples.failed_at_100) = Ok false.
Proof.
  assert (never (signals "s0") Examples.plain Examples.meanwhile Examples.failed_at_100)
    as Hq.
  { cbn [never Examples.meanwhile signals snd]. split; [tauto|].
    split; [|done]. vm_compute. discriminate. }
  assert (clock_monotone 100 Examples.meanwhile 10099) as Ht1 by (cbn; lia).
  assert (clock_monotone 100 Examples.meanwhile 10100) as Ht2 by (cbn; lia).
  split; [exact Hq|]. split; [exact Ht1|]. split; [|split; [exact Ht2|]].
  - etransitivity;
      [eapply (proj1 (blacklist_expires_and_is_purged Examples.plain) 100 0%nat _ _ Error
                 ErrorEvent Examples.started Examples.meanwhile 10099 Examples.s0);
       [reflexivity..|exact Hq|exact Ht1]
      |reflexivity].
  - etransitivity;
      [eapply (proj1 (blacklist_expires_and_is_purged Examples.plain) 100 0%nat _ _ Error
                 ErrorEvent Examples.started Examples.meanwhile 10100 Examples.s0);
       [reflexivity..|exact Hq|exact Ht2]
      |reflexivity].
Defined.

(** ** What a signal does to the two maps *)

Lemma deliver_maps (settings : Settings) (now : Z) (h : nat) (signal : Signal) (w : World) :
  self (exec (deliver settings now h signal) w)
  = match listeners_at w h with
    | None => self w
    | Some l =>
        let id := Segment.id (l_segment l) in
        match failure_cause settings l signal with
        | Some _ =>
            mkAdapter (delete id (xhrRequests (self w)))
                      (<[id := now + httpFailedSegmentTimeout settings]>
                         (failedSegments (self w)))
        | None =>
            if success_signal settings l signal
            then mkAdapter (delete id (xhrRequests (self w))) (failedSegments (self w))
            else match signal with
                 | Load _ _ responseURL =>
                     mkAdapter (alter (record_responseUrl h responseURL) id
                                      (xhrRequests (self w)))
                               (failedSegments (self w))
                 | _ => self w
                 end
        end
    end.
Proof.
  destruct (listeners_at w h) as [l|] eqn:Hat.
  - assert (∃ x, heap w !! h = Some x ∧ x_listeners x = Some l) as (x & Hx & Hl).
    { unfold listeners_at in Hat. destruct (heap w !! h) as [x|]; [|done]. eauto. }
    cbn zeta. destruct (failure_cause settings l signal) as [cause|] eqn:Hc.
    { destruct (deliver_failed settings now h x l signal cause w Hx Hl Hc)
        as (segment' & heap' & _ & Hrun).
      unfold exec. by rewrite Hrun. }
    destruct signal as [loaded computable total|status response responseURL| | |];
      cbn [failure_cause success_signal] in *; try discriminate.
    + unfold exec, deliver. by rewrite (onProgress_ok _ _ _ _ _ _ _ Hx Hl).
    + case_bool_decide as Hs; [|discriminate]. unfold exec.
      rewrite (load_success _ _ _ _ _ _ _ _ _ Hx Hl Hs).
      by destruct (segmentValidator settings).
    + unfold exec, deliver, segmentDownloadFinished_resume, mbind, M_bind.
      rewrite (listeners_read_ok _ _ _ _ Hx Hl).
      destruct (l_awaiting l) as [data|] eqn:Ha; [|done].
      destruct (segmentValidator settings) as [validator|] eqn:Hv; [|done].
      destruct (validator (Segment.with_data data (l_segment l)) "http") eqn:He;
        [discriminate|].
      done.
  - apply deliver_unheard. by rewrite listening_for_listeners_at, Hat.
Qed.

(** A segment in flight stays in flight under every call that does not take
    it out. *)
Lemma call_keeps_in_flight (settings : Settings) (now : Z) (c : Call) (id : string)
    (w : World) :
  is_Some (xhrRequests (self w) !! id) →
  ¬ removes settings id w c →
  is_Some (xhrRequests (self (exec (call settings now c) w)) !! id).
Proof.
  intros E Hc. destruct c as [seg pieces|seg|seg| |h signal]; cbn [call removes] in *.
  - destruct (download_self settings now seg pieces w) as [->|(r & -> & _)]; [done|].
    cbn. apply lookup_insert_is_Some'. by right.
  - destruct (updatePriority_self settings now seg w) as [->|(r & ->)]; [done|].
    cbn. apply lookup_insert_is_Some'. by right.
  - rewrite abort_self. cbn. by rewrite lookup_delete_ne.
  - done.
  - rewrite deliver_maps. destruct (listeners_at w h) as [l|] eqn:Hat; [|done].
    cbn zeta.
    destruct (decide (Segment.id (l_segment l) = id)) as [Hid|Hid].
    + destruct (failure_cause settings l signal) as [cause|] eqn:Hf;
        [destruct Hc; eauto 10|].
      destruct (success_signal settings l signal) eqn:Hs; [destruct Hc; eauto 10|].
      destruct signal; try done. cbn. by apply lookup_alter_is_Some.
    + destruct (failure_cause settings l signal) as [cause|];
        [cbn; by rewrite lookup_delete_ne|].
      destruct (success_signal settings l signal); [cbn; by rewrite lookup_delete_ne|].
      destruct signal; try done. cbn. by apply lookup_alter_is_Some.
Qed.

Lemma calls_keep_in_flight (settings : Settings) (cs : list (Z * Call)) :
  ∀ (w : World) (id : string),
    is_Some (xhrRequests (self w) !! id) →
    never (removes settings id) settings cs w →
    is_Some (xhrRequests (self (calls settings cs w)) !! id).
Proof.
  induction cs as [|[now c] cs IH]; intros w id E Hq; [done|].
  destruct Hq as [Hc Hq]. apply (IH _ _ (call_keeps_in_flight _ _ _ _ _ E Hc) Hq).
Qed.

Lemma cancels_of_removes (settings : Settings) (id : string) (w : World) (c : Call) :
  removes settings id w c → cancels id w c.
Proof.
  destruct c; cbn; try done. intros (l & Hat & Hid & _).
  by rewrite listening_for_listeners_at, Hat, <- Hid.
Qed.

Lemma never_removes_of_cancels (settings : Settings) (id : string)
    (cs : list (Z * Call)) :
  ∀ w, never (cancels id) settings cs w → never (removes settings id) settings cs w.
Proof.
  induction cs as [|c cs IH]; intros w; [done|]. cbn. intros [Hc Hq].
  split; [|by apply IH]. intros Hr. by apply Hc, (cancels_of_removes settings).
Qed.

(** ** The validation window *)

(** C7, as stated, fails: a segment is loaded and handed to the validator,
    then aborted and requested again; the bytes of the second request arrive
    and its validation is pending, when the validator accepts the first
    payload.  The adapter deletes the segment from [xhrRequests] although the
    second request's validation has not resolved. *)
Lemma validation_window_closed_early :
  ∃ l data,
    listeners_at Examples.second_arrival 1 = Some l
    ∧ l_awaiting l = Some data
    ∧ isDownloading Examples.s0 Examples.second_arrival = (Ok true, Examples.second_arrival)
    ∧ outcome (isDownloading Examples.s0)
        (exec (deliver Examples.validating 80 0 Settled) Examples.second_arrival)
      = Ok false
    ∧ l_awaiting
        <$> listeners_at
              (exec (deliver Examples.validating 80 0 Settled) Examples.second_arrival) 1
      = Some (Some data).
Proof. eexists _, _. repeat split; reflexivity. Qed.

(** C7, amended: with a validator configured, a ["load"] with a 2xx status
    calls the validator and emits nothing; it deletes no record and leaves
    the blacklist alone, so every segment in flight, this one included, is
    still in flight.  The segment stays in flight under every sequence of
    calls that does not take it out of [xhrRequests], that is, as long as it
    is not aborted, restarted or destroyed and no request made for the same
    segment id, this one or an earlier one, fails or succeeds.  If moreover
    no signal at all arrives for that segment id, the listener is still
    waiting with the same payload at the end of the sequence.  Whenever the
    validator accepts a payload, the segment has been deleted from
    [xhrRequests] in the state the listeners of ["segment-loaded"] find. *)
Theorem validation_window (settings : Settings)
    (validator : Segment.t → string → option string) (now : Z) (h : nat) (x : Xhr)
    (l : Listeners) (status : Z) (response : Bytes) (responseURL : option string)
    (w : World) :
  segmentValidator settings = Some validator →
  heap w !! h = Some x →
  x_listeners x = Some l →
  200 ≤ status < 300 →
  isDownloading (l_segment l) w = (Ok true, w) →
  let id := Segment.id (l_segment l) in
  let data := load_data l status response in
  let segment' := Segment.with_responseUrl responseURL (l_segment l) in
  let waiting := l_with_awaiting (Some data) (l_with_segment segment' l) in
  let arrived := exec (deliver settings now h (Load status response responseURL)) w in
  trace arrived = trace w ++ [ValidatorCalled (Segment.with_data data segment') "http"]
  ∧ failedSegments (self arrived) = failedSegments (self w)
  ∧ (∀ segment, outcome (isDownloading segment) arrived = outcome (isDownloading segment) w)
  ∧ listeners_at arrived h = Some waiting
  ∧ (∀ cs, never (removes settings id) settings cs arrived →
           outcome (isDownloading (l_segment l)) (calls settings cs arrived) = Ok true)
  ∧ (∀ cs, never (cancels id) settings cs arrived →
           listeners_at (calls settings cs arrived) h = Some waiting)
  ∧ ∀ now' w2 l2 data2,
      listeners_at w2 h = Some l2 →
      l_awaiting l2 = Some data2 →
      validator (Segment.with_data data2 (l_segment l2)) "http" = None →
      let accepted := exec (deliver settings now' h Settled) w2 in
      ∃ seen,
        trace accepted = trace w2 ++ [Emitted (SegmentLoaded (l_segment l2) data2) seen]
        ∧ xhrRequests seen !! Segment.id (l_segment l2) = None
        ∧ seen = self accepted.
Proof.
  intros Hv Hx Hl Hs [request E]%isDownloading_true. cbn zeta.
  set (data := load_data l status response).
  set (segment' := Segment.with_responseUrl responseURL (l_segment l)).
  set (arrived := exec _ w).
  assert (arrived
          = mkWorld
              (mkAdapter
                 (alter (record_responseUrl h responseURL) (Segment.id (l_segment l))
                        (xhrRequests (self w)))
                 (failedSegments (self w)))
              (alter (xhr_listeners (fmap (l_with_awaiting (Some data)))) h
                 (alter (xhr_listeners (fmap (l_with_segment segment'))) h
                    (alter (xhr_respond status response responseURL) h (heap w))))
              (trace w ++ [ValidatorCalled (Segment.with_data data segment') "http"]))
    as Harrived.
  { subst arrived. unfold exec. by rewrite (load_success _ _ _ _ _ _ _ _ _ Hx Hl Hs), Hv. }
  assert (listeners_at arrived h
          = Some (l_with_awaiting (Some data) (l_with_segment segment' l))) as Hat.
  { rewrite Harrived. unfold listeners_at. cbn.
    rewrite !list_lookup_alter_eq, Hx. cbn. by rewrite Hl. }
  assert (listening_for arrived h = Some (Segment.id (l_segment l))) as Hfor
    by (by rewrite listening_for_listeners_at, Hat).
  assert (is_Some (xhrRequests (self arrived) !! Segment.id (l_segment l))) as Ein.
  { rewrite Harrived. cbn. apply lookup_alter_is_Some. rewrite E. eauto. }
  split; [by rewrite Harrived|]. split; [by rewrite Harrived|]. split.
  { intros segment. rewrite Harrived. unfold outcome, isDownloading, gets. cbn.
    f_equal. apply bool_decide_ext. apply lookup_alter_is_Some. }
  split; [exact Hat|]. split.
  { intros cs Hq. unfold outcome, isDownloading, gets. cbn [fst]. f_equal.
    apply bool_decide_eq_true. by apply calls_keep_in_flight. }
  split.
  { intros cs Hq. rewrite <- Hat. by eapply calls_keep_listeners. }
  intros now' w2 l2 data2 Hat2 Ha2 Hok. cbn zeta.
  unfold listeners_at in Hat2.
  destruct (heap w2 !! h) as [x2|] eqn:Hx2; [|done]. cbn in Hat2.
  unfold exec.
  rewrite (settled_accepted settings now' h x2 l2 data2 validator w2 Hx2 Hat2 Ha2 Hv Hok).
  cbn [snd trace self xhrRequests].
  eexists. split; [reflexivity|]. split; [apply lookup_delete_eq|done].
Qed.

Lemma validation_window_witness :
  ∃ x l,
    heap Examples.started_validating !! 0%nat = Some x
    ∧ x_listeners x = Some l
    ∧ isDownloading (l_segment l) Examples.started_validating
      = (Ok true, Examples.started_validating)
    ∧ never (removes Examples.validating "s0") Examples.validating
        [(60, Download Examples.s1 None)] Examples.loaded_good
    ∧ outcome (isDownloading Examples.s0)
        (calls Examples.validating [(60, Download Examples.s1 None)] Examples.loaded_good)
      = Ok true.
Proof.
  eexists _, _. split; [reflexivity|]. split; [reflexivity|]. split; [reflexivity|].
  assert (never (removes Examples.validating "s0") Examples.validating
            [(60, Download Examples.s1 None)] Examples.loaded_good) as Hq by (cbn; tauto).
  split; [exact Hq|].
  eapply (proj1 (proj2 (proj2 (proj2 (proj2
            (validation_window Examples.validating Examples.sync_byte 40
               0%nat _ _ 200 [Byte.x47; Byte.x01] (Some "http://cdn/s0")
               Examples.started_validating eq_refl eq_refl eq_refl
               ltac:(lia) eq_refl)))))
            [(60, Download Examples.s1 None)] Hq).
Defined.

(** ** Tearing the adapter down *)

Lemma destroy_heap (requests : gmap string Request) (heap0 : list Xhr) :
  let heap' :=
    map_fold (λ _ request heap, alter xhr_abort (xhr request) heap) heap0 requests in
  (∀ id request, requests !! id = Some request →
                 heap' !! xhr request = xhr_abort <$> heap0 !! xhr request)
  ∧ (∀ k, (∀ id request, requests !! id = Some request → xhr request ≠ k) →
          heap' !! k = heap0 !! k)
  ∧ ∀ k, x_listeners <$> heap' !! k = x_listeners <$> heap0 !! k.
Proof.
  cbn zeta.
  apply (map_fold_weak_ind
           (λ heap' (requests : gmap string Request),
              (∀ id request, requests !! id = Some request →
                             heap' !! xhr request = xhr_abort <$> heap0 !! xhr request)
              ∧ (∀ k, (∀ id request, requests !! id = Some request → xhr request ≠ k) →
                      heap' !! k = heap0 !! k)
              ∧ ∀ k, x_listeners <$> heap' !! k = x_listeners <$> heap0 !! k)).
  - split; [|split]; [intros ?? E; by rewrite lookup_empty in E|done..].
  - intros i r m heap' Hfresh (IHin & IHout & IHl). split; [|split].
    + intros id request E.
      destruct (decide (xhr r = xhr request)) as [Heq|Hne].
      * rewrite Heq, list_lookup_alter_eq.
        destruct (decide (∃ id' r', m !! id' = Some r' ∧ xhr r' = xhr request))
          as [(id' & r' & E' & Hr')|Hnone].
        -- rewrite <- Hr', (IHin _ _ E'), Hr'.
           by destruct (heap0 !! xhr request).
        -- rewrite IHout; [done|]. intros id' r' E' Hr'. apply Hnone. eauto.
      * rewrite list_lookup_alter_ne by done.
        apply lookup_insert_Some in E as [[-> ->]|[Hi E]]; [done|]. by eapply IHin.
    + intros k Hk.
      rewrite list_lookup_alter_ne by (apply (Hk i); apply lookup_insert_eq).
      apply IHout. intros id request E. apply (Hk id).
      rewrite lookup_insert_ne; [done|]. intros <-. congruence.
    + intros k. destruct (decide (xhr r = k)) as [<-|Hne].
      * rewrite list_lookup_alter_eq, <- IHl. by destruct (heap' !! xhr r).
      * by rewrite list_lookup_alter_ne.
Qed.

(** X1: [destroy] calls [abort] on the request object of every record of
    [xhrRequests] and on no other, empties [xhrRequests], keeps the
    blacklist, and emits nothing; afterwards no segment is downloading, the
    count is 0, and a second [destroy] changes nothing. *)
Theorem destroy_aborts_all (w : World) :
  let w' := exec destroy w in
  outcome destroy w = Ok ()
  ∧ xhrRequests (self w') = ∅
  ∧ failedSegments (self w') = failedSegments (self w)
  ∧ trace w' = trace w
  ∧ (∀ id request, xhrRequests (self w) !! id = Some request →
                   heap w' !! xhr request = xhr_abort <$> heap w !! xhr request)
  ∧ (∀ k, (∀ id request, xhrRequests (self w) !! id = Some request → xhr request ≠ k) →
          heap w' !! k = heap w !! k)
  ∧ (∀ segment, outcome (isDownloading segment) w' = Ok false)
  ∧ outcome getActiveDownloadsCount w' = Ok 0%nat
  ∧ exec destroy w' = w'.
Proof.
  cbn zeta.
  destruct (destroy_heap (xhrRequests (self w)) (heap w)) as (Hin & Hout & _).
  split; [done|]. split; [done|]. split; [done|]. split; [done|].
  split; [exact Hin|]. split; [exact Hout|].
  split; [done|]. split; [done|].
  unfold exec, destroy, getActiveDownloads, gets, modify, set_xhrRequests, mbind, M_bind.
  cbn. by rewrite map_fold_empty.
Qed.

Lemma destroy_aborts_all_witness :
  ∃ request,
    xhrRequests (self (calls Examples.plain Examples.two_in_flight initial)) !! "s1"
    = Some request
    ∧ x_aborted
        <$> heap (exec destroy (calls Examples.plain Examples.two_in_flight initial))
            !! xhr request
      = Some true.
Proof.
  eexists. split; [reflexivity|].
  destruct (destroy_aborts_all (calls Examples.plain Examples.two_in_flight initial))
    as (_ & _ & _ & _ & Hin & _).
  rewrite (Hin "s1" _ eq_refl). reflexivity.
Defined.

(** ** The segment a request object was set up for *)

Lemma listening_for_alter (w w' : World) (f : Xhr → Xhr) (h k : nat) :
  heap w' = alter f h (heap w) →
  (∀ x, heap w !! h = Some x →
        (λ l, Segment.id (l_segment l)) <$> x_listeners (f x)
        = (λ l, Segment.id (l_segment l)) <$> x_listeners x) →
  listening_for w' k = listening_for w k.
Proof.
  intros Hheap Hf. rewrite !listening_for_listeners_at. unfold listeners_at.
  rewrite Hheap.
  destruct (decide (h = k)) as [<-|Hne]; [|by rewrite list_lookup_alter_ne].
  rewrite list_lookup_alter_eq. destruct (heap w !! h) as [x|] eqn:Hx; [|done].
  cbn. by apply Hf.
Qed.

Lemma listening_for_heap (w w' : World) (k : nat) :
  heap w' = heap w → listening_for w' k = listening_for w k.
Proof. unfold listening_for. by intros ->. Qed.

Lemma listening_for_alter_plain (w w' : World) (f : Xhr → Xhr) (h k : nat) :
  heap w' = alter f h (heap w) →
  (∀ x, x_listeners (f x) = x_listeners x
        ∨ x_listeners (f x) = l_with_awaiting None <$> x_listeners x
        ∨ (∃ d, x_listeners (f x) = l_with_awaiting (Some d) <$> x_listeners x)
        ∨ ∃ n, x_listeners (f x) = l_with_prev n <$> x_listeners x) →
  listening_for w' k = listening_for w k.
Proof.
  intros Hheap Hf. apply (listening_for_alter w w' f h k Hheap). intros x _.
  destruct (Hf x) as [->|[->|[[d ->]|[n ->]]]]; by destruct (x_listeners x).
Qed.

Lemma segmentFailure_listening (settings : Settings) (now : Z) (segment : Segment.t)
    (error : Cause) (h : nat) (w : World) :
  listening_for w h = Some (Segment.id segment) →
  ∀ k, listening_for (exec (segmentFailure settings now segment error h) w) k
       = listening_for w k.
Proof.
  intros (x & l & Hx & Hl & Hid)%listening_for_Some k.
  unfold exec. rewrite (segmentFailure_ok _ _ _ _ _ _ _ Hx). cbn [snd].
  eapply listening_for_alter; [reflexivity|].
  intros x' Hx'. rewrite Hx in Hx'. injection Hx' as <-.
  cbn. rewrite Hl. cbn. by rewrite Hid.
Qed.

(** A signal never changes which segment a request object is listening for. *)
Lemma deliver_listening (settings : Settings) (now : Z) (h : nat) (signal : Signal)
    (w : World) (k : nat) :
  listening_for (exec (deliver settings now h signal) w) k = listening_for w k.
Proof.
  assert (∀ status response responseURL k',
            listening_for
              (mkWorld (self w) (alter (xhr_respond status response responseURL) h (heap w))
                       (trace w)) k'
            = listening_for w k') as Hrespond.
  { intros. eapply listening_for_alter_plain; [reflexivity|]. intros x. by left. }
  destruct (listening_for w h) as [id|] eqn:Hid.
  - pose proof Hid as (x & l & Hx & Hl & Hidl)%listening_for_Some.
    destruct signal as [loaded computable total|status response responseURL| | |];
      unfold exec, deliver.
    + rewrite (onProgress_ok _ _ _ _ _ _ _ Hx Hl). cbn [snd].
      eapply listening_for_alter_plain; [reflexivity|]. intros x'. cbn. eauto.
    + set (w0 := mkWorld (self w)
                   (alter (xhr_respond status response responseURL) h (heap w)) (trace w)).
      assert (heap w0 !! h = Some (xhr_respond status response responseURL x)) as Hx0
        by (cbn; by rewrite list_lookup_alter_eq, Hx).
      assert (listening_for w0 h = Some (Segment.id (l_segment l))) as Hid0
        by (subst w0; by rewrite Hrespond, Hid, Hidl).
      rewrite <- (Hrespond status response responseURL k). fold w0.
      destruct (decide (200 ≤ status < 300)) as [Hs|Hs].
      * pose proof (load_success settings now h x l status response responseURL w Hx Hl Hs)
          as Hrun. cbn zeta in Hrun. unfold deliver in Hrun. rewrite Hrun. cbn [snd].
        set (segment' := Segment.with_responseUrl responseURL (l_segment l)).
        assert (∀ s t k',
                  listening_for
                    (mkWorld s (alter (xhr_listeners (fmap (l_with_segment segment'))) h
                                  (heap w0)) t) k'
                  = listening_for w0 k') as Hseg.
        { intros s t k'. eapply listening_for_alter; [reflexivity|].
          intros x' Hx'. rewrite Hx0 in Hx'. injection Hx' as <-. cbn. by rewrite Hl. }
        destruct (segmentValidator settings); [|apply Hseg].
        rewrite <- (Hseg (self w) (trace w) k).
        eapply listening_for_alter_plain; [reflexivity|]. intros x'. cbn. eauto.
      * unfold mbind, M_bind, xhr_update, modify. fold w0.
        unfold onLoad, mbind, M_bind.
        rewrite (xhr_read_ok _ _ _ Hx0), (listeners_read_ok _ _ l _ Hx0 Hl).
        cbn [x_status xhr_respond]. rewrite bool_decide_eq_true_2 by lia.
        by apply (segmentFailure_listening settings now (l_segment l) LoadEvent h w0).
    + unfold onError, mbind, M_bind. rewrite (listeners_read_ok _ _ _ _ Hx Hl).
      apply (segmentFailure_listening settings now (l_segment l) ErrorEvent h w).
      by rewrite Hidl.
    + unfold onTimeout, mbind, M_bind. rewrite (listeners_read_ok _ _ _ _ Hx Hl).
      apply (segmentFailure_listening settings now (l_segment l) TimeoutEvent h w).
      by rewrite Hidl.
    + unfold segmentDownloadFinished_resume, mbind, M_bind.
      rewrite (listeners_read_ok _ _ _ _ Hx Hl).
      destruct (l_awaiting l) as [data|]; [|done].
      destruct (segmentValidator settings) as [validator|]; [|done].
      unfold mbind, M_bind, xhr_update, modify.
      set (w1 := mkWorld (self w)
                   (alter (xhr_listeners (fmap (l_with_awaiting None))) h (heap w))
                   (trace w)).
      assert (∀ k', listening_for w1 k' = listening_for w k') as Hw1.
      { intros k'. eapply listening_for_alter_plain; [reflexivity|]. intros x'. cbn. eauto. }
      destruct (validator _ _) as [error|].
      * rewrite <- Hw1.
        apply (segmentFailure_listening settings now (l_segment l) _ h w1).
        by rewrite Hw1, Hidl.
      * unfold segmentDownloadFinished_accepted, mbind, M_bind. cbn. apply Hw1.
  - destruct (listeners_read_unheard h w Hid) as [message Hread].
    destruct signal as [loaded computable total|status response responseURL| | |];
      unfold exec, deliver, onProgress, onError, onTimeout, segmentDownloadFinished_resume;
      unfold mbind, M_bind; rewrite ?Hread; try done.
    unfold xhr_update, modify.
    set (w0 := mkWorld (self w)
                 (alter (xhr_respond status response responseURL) h (heap w)) (trace w)).
    assert (listening_for w0 h = None) as Hid0
      by (subst w0; by rewrite Hrespond).
    destruct (listeners_read_unheard h w0 Hid0) as [message0 Hread0].
    unfold onLoad, mbind, M_bind, xhr_read.
    destruct (heap w0 !! h); [rewrite Hread0|]; apply Hrespond.
Qed.

(** ** The records stay consistent *)

Lemma xhr_started_listeners (settings : Settings) (segment : Segment.t)
    (downloadedPieces : option (list Bytes)) :
  x_listeners (xhr_started settings segment downloadedPieces)
  = Some (mkListeners (Segment.with_requestUrl (segmentUrl_of settings segment) segment)
                      (pieces_kept settings segment downloadedPieces) 0 None).
Proof. unfold xhr_started. by destruct (xhrSetup settings). Qed.

Lemma listening_for_grown (s s' : Adapter) (t t' : list Action) (hp more : list Xhr)
    (k : nat) (id : string) :
  listening_for (mkWorld s hp t) k = Some id →
  listening_for (mkWorld s' (hp ++ more) t') k = Some id.
Proof.
  intros (x & l & Hx & Hl & Hid)%listening_for_Some. apply listening_for_Some.
  exists x, l. cbn in *. split; [|done].
  rewrite lookup_app_l; [done|]. by eapply lookup_lt_Some.
Qed.

Lemma download_well_formed (settings : Settings) (now : Z) (seg : Segment.t)
    (downloadedPieces : option (list Bytes)) (w : World) :
  well_formed w → well_formed (exec (download settings now seg downloadedPieces) w).
Proof.
  intros Hwf. destruct (xhrRequests (self w) !! Segment.id seg) as [request|] eqn:E.
  - assert (isDownloading seg w = (Ok true, w)) as Hd
      by (apply isDownloading_true; rewrite E; eauto).
    unfold exec, download, mbind, M_bind. by rewrite Hd.
  - unfold exec. rewrite (download_not_in_flight _ _ _ _ _ E). unfold world_started.
    intros id request. cbn [snd self xhrRequests].
    intros [[<- <-]|[Hne Hin]]%lookup_insert_Some.
    + cbn [segment xhr segmentUrl]. split; [done|]. split; [|done].
      apply listening_for_Some. eexists _, _. cbn [heap].
      split; [by apply list_lookup_middle|].
      split; [apply xhr_started_listeners|done].
    + destruct (Hwf id request Hin) as (Hid & Hl & Hu).
      split; [done|]. split; [|done].
      destruct w as [s hp t]. by eapply listening_for_grown.
Qed.

Lemma abort_well_formed (segment : Segment.t) (w : World) :
  well_formed w → well_formed (exec (abort segment) w).
Proof.
  intros Hwf. destruct (xhrRequests (self w) !! Segment.id segment) as [request|] eqn:E;
    unfold exec.
  - rewrite (abort_downloading _ _ _ E). cbn [snd].
    intros id request'. cbn [self xhrRequests].
    intros [Hne Hin]%lookup_delete_Some.
    destruct (Hwf id request' Hin) as (Hid & Hl & Hu).
    split; [done|]. split; [|done]. rewrite <- Hl.
    eapply listening_for_alter_plain; [reflexivity|]. intros x. by left.
  - by rewrite (abort_not_downloading _ _ E).
Qed.

Lemma updatePriority_exec (settings : Settings) (now : Z) (segment : Segment.t)
    (w : World) :
  exec (updatePriority settings now segment) w = w
  ∨ exec (updatePriority settings now segment) w
    = exec (download settings now segment None) (exec (abort segment) w).
Proof.
  unfold exec, updatePriority, gets, mbind, M_bind.
  destruct (xhrRequests (self w) !! Segment.id segment) as [request|] eqn:E; [|by left].
  destruct (_ && _); [|by left]. right.
  by rewrite (abort_downloading _ _ _ E).
Qed.

Lemma record_responseUrl_same (h : nat) (u : option string) (r : Request) :
  xhr (record_responseUrl h u r) = xhr r
  ∧ Segment.id (segment (record_responseUrl h u r)) = Segment.id (segment r)
  ∧ Segment.requestUrl (segment (record_responseUrl h u r)) = Segment.requestUrl (segment r)
  ∧ initialPriority (record_responseUrl h u r) = initialPriority r
  ∧ segmentUrl (record_responseUrl h u r) = segmentUrl r.
Proof. unfold record_responseUrl. by case_decide. Qed.

Lemma deliver_well_formed (settings : Settings) (now : Z) (h : nat) (signal : Signal)
    (w : World) :
  well_formed w → well_formed (exec (deliver settings now h signal) w).
Proof.
  intros Hwf id request Hin.
  assert (∃ r0, xhrRequests (self w) !! id = Some r0
                ∧ xhr request = xhr r0
                ∧ Segment.id (segment request) = Segment.id (segment r0)
                ∧ Segment.requestUrl (segment request) = Segment.requestUrl (segment r0)
                ∧ segmentUrl request = segmentUrl r0) as (r0 & Hin0 & Hx & Hi & Hu & Hs).
  { destruct (deliver_self settings now h signal w)
      as [Hself|(id' & _ & [[Hreq _]|[u Hself]])].
    - rewrite Hself in Hin. eauto 10.
    - rewrite Hreq in Hin. apply lookup_delete_Some in Hin as [_ ?]. eauto 10.
    - rewrite Hself in Hin. cbn in Hin.
      apply lookup_alter_Some in Hin as [(_ & r0 & Hin0 & ->)|[_ Hin0]]; [|eauto 10].
      destruct (record_responseUrl_same h u r0) as (? & ? & ? & _ & ?). eauto 10. }
  destruct (Hwf id r0 Hin0) as (Hid & Hl & Hurl).
  rewrite Hx, Hi, Hu, Hs. split; [done|]. split; [|done]. by rewrite deliver_listening.
Qed.

Lemma call_well_formed (settings : Settings) (now : Z) (c : Call) (w : World) :
  well_formed w → well_formed (exec (call settings now c) w).
Proof.
  intros Hwf. destruct c as [segment pieces|segment|segment| |h signal]; cbn [call].
  - by apply download_well_formed.
  - destruct (updatePriority_exec settings now segment w) as [->| ->]; [done|].
    by apply download_well_formed, abort_well_formed.
  - by apply abort_well_formed.
  - intros id request. rewrite destroy_self. cbn. by rewrite lookup_empty.
  - by apply deliver_well_formed.
Qed.

Lemma calls_well_formed (settings : Settings) (cs : list (Z * Call)) :
  ∀ w, well_formed w → well_formed (calls settings cs w).
Proof.
  induction cs as [|[now c] cs IH]; intros w Hwf; [done|].
  apply IH. by apply call_well_formed.
Qed.

Lemma initial_well_formed : well_formed initial.
Proof. intros id request. cbn. by rewrite lookup_empty. Qed.

(** X2: whatever the scheduler, the browser and the validator do, in any
    order, every record of [xhrRequests] is filed under the id of its
    segment, points to a request object whose listeners were set up for that
    segment, and holds a segment whose [requestUrl] is the URL of the
    request; two records never share a request object. *)
Theorem reachable_well_formed (settings : Settings) (cs : list (Z * Call)) :
  let w := calls settings cs initial in
  well_formed w
  ∧ ∀ id1 id2 request1 request2,
      xhrRequests (self w) !! id1 = Some request1 →
      xhrRequests (self w) !! id2 = Some request2 →
      xhr request1 = xhr request2 →
      id1 = id2.
Proof.
  cbn zeta. pose proof (calls_well_formed settings cs initial initial_well_formed) as Hwf.
  split; [exact Hwf|].
  intros id1 id2 r1 r2 H1 H2 Heq.
  destruct (Hwf _ _ H1) as (_ & Hl1 & _). destruct (Hwf _ _ H2) as (_ & Hl2 & _).
  rewrite Heq in Hl1. congruence.
Qed.

Lemma reachable_well_formed_witness :
  ∃ request1 request2,
    xhrRequests (self (calls Examples.plain Examples.two_in_flight initial)) !! "s0"
    = Some request1
    ∧ xhrRequests (self (calls Examples.plain Examples.two_in_flight initial)) !! "s1"
      = Some request2
    ∧ xhr request1 ≠ xhr request2.
Proof.
  eexists _, _. split; [reflexivity|]. split; [reflexivity|].
  intros Heq.
  pose proof (proj2 (reachable_well_formed Examples.plain Examples.two_in_flight)
                "s0" "s1" _ _ eq_refl eq_refl Heq) as Hid.
  discriminate Hid.
Defined.

(** X3: in every world the adapter can reach, a call that neither cancels
    nor signals a segment in flight leaves that segment's record and its
    request object exactly as they were; in particular aborting or
    restarting one segment never aborts the request of another. *)
Theorem unrelated_call_keeps_request (settings : Settings) (cs : list (Z * Call))
    (now : Z) (c : Call) (id : string) (request : Request) :
  let w := calls settings cs initial in
  xhrRequests (self w) !! id = Some request →
  ¬ cancels id w c →
  let w' := exec (call settings now c) w in
  xhrRequests (self w') !! id = Some request
  ∧ heap w' !! xhr request = heap w !! xhr request.
Proof.
  cbn zeta. set (w := calls settings cs initial). intros E Hc.
  split; [by apply call_keeps_request|].
  pose proof (calls_well_formed settings cs initial initial_well_formed) as Hwf.
  fold w in Hwf. destruct (Hwf id request E) as (_ & Hl & _).
  assert (is_Some (heap w !! xhr request)) as [x Hx]
    by (apply listening_for_Some in Hl as (x & _ & -> & _); eauto).
  assert (∀ seg r more s t,
            Segment.id seg ≠ id →
            xhrRequests (self w) !! Segment.id seg = Some r →
            heap (mkWorld s (alter xhr_abort (xhr r) (heap w) ++ more) t) !! xhr request
            = heap w !! xhr request) as Haborted.
  { intros seg r more s t Hne Er. cbn.
    rewrite lookup_app_l by (rewrite length_alter; by eapply lookup_lt_Some).
    apply list_lookup_alter_ne. intros Heq.
    destruct (Hwf _ r Er) as (_ & Hlr & _). rewrite Heq in Hlr. congruence. }
  destruct c as [seg pieces|seg|seg| |h signal]; cbn [call cancels] in *.
  - destruct (xhrRequests (self w) !! Segment.id seg) as [r|] eqn:Er.
    + assert (isDownloading seg w = (Ok true, w)) as Hd
        by (apply isDownloading_true; rewrite Er; eauto).
      unfold exec, download, mbind, M_bind. by rewrite Hd.
    + unfold exec. rewrite (download_not_in_flight _ _ _ _ _ Er). cbn.
      apply lookup_app_l. by eapply lookup_lt_Some.
  - destruct (xhrRequests (self w) !! Segment.id seg) as [r|] eqn:Er.
    + destruct (decide (must_restart settings seg r)) as [Hr|Hr]; unfold exec.
      * rewrite (updatePriority_restart _ _ _ _ _ Er Hr). unfold world_started.
        cbn [snd heap self trace]. by apply (Haborted seg r _ (self w) []).
      * by rewrite (updatePriority_keep _ _ _ _ _ Er Hr).
    + unfold exec. by rewrite (updatePriority_unknown _ _ _ _ Er).
  - destruct (xhrRequests (self w) !! Segment.id seg) as [r|] eqn:Er; unfold exec.
    + rewrite (abort_downloading _ _ _ Er). cbn [snd].
      rewrite <- (app_nil_r (alter _ _ _)). by apply (Haborted seg r [] (self w) []).
    + by rewrite (abort_not_downloading _ _ Er).
  - done.
  - apply confined_deliver. intros Heq. rewrite Heq in Hl. done.
Qed.

Lemma unrelated_call_keeps_request_witness :
  ∃ request x,
    xhrRequests (self (calls Examples.plain Examples.two_in_flight initial)) !! "s0"
    = Some request
    ∧ ¬ cancels "s0" (calls Examples.plain Examples.two_in_flight initial)
          (Abort Examples.s1)
    ∧ heap (exec (abort Examples.s1) (calls Examples.plain Examples.two_in_flight initial))
        !! xhr request = Some x
    ∧ x_aborted x = false.
Proof.
  eexists _, _. split; [reflexivity|].
  assert (¬ cancels "s0" (calls Examples.plain Examples.two_in_flight initial)
              (Abort Examples.s1)) as Hc by (cbn; discriminate).
  split; [exact Hc|]. split.
  - etransitivity;
      [exact (proj2 (unrelated_call_keeps_request Examples.plain Examples.two_in_flight 9
                       (Abort Examples.s1) "s0" _ eq_refl Hc))
      |reflexivity].
  - reflexivity.
Defined.

(** ** Calling [updatePriority] again *)

(** X4: [updatePriority] restarts a request at most once: a second call for
    the same segment, at any later time, changes nothing that the first call
    left behind (and throws again when the first one threw). *)
Theorem updatePriority_twice (settings : Settings) (now now' : Z) (segment : Segment.t)
    (w : World) :
  let w' := exec (updatePriority settings now segment) w in
  exec (updatePriority settings now' segment) w' = w'
  ∧ outcome (updatePriority settings now' segment) w'
    = outcome (updatePriority settings now segment) w.
Proof.
  cbn zeta. unfold exec, outcome.
  destruct (xhrRequests (self w) !! Segment.id segment) as [request|] eqn:E.
  - destruct (decide (must_restart settings segment request)) as [Hr|Hr].
    + rewrite (updatePriority_restart _ _ _ _ _ E Hr). cbn [fst snd].
      set (w' := world_started _ _ _ _ _).
      destruct (xhrRequests (self w') !! Segment.id segment) as [request'|] eqn:E'.
      * assert (initialPriority request' = Segment.priority segment) as Hp.
        { subst w'. unfold world_started in E'. cbn in E'.
          rewrite lookup_insert_eq in E'. by injection E' as <-. }
        assert (¬ must_restart settings segment request') as Hr'.
        { destruct Hr as [Hlow _]. intros (_ & Hhigh & _). lia. }
        by rewrite (updatePriority_keep _ _ _ _ _ E' Hr').
      * subst w'. unfold world_started in E'. cbn in E'.
        by rewrite lookup_insert_eq in E'.
    + by rewrite !(updatePriority_keep _ _ _ _ _ E Hr).
  - by rewrite !(updatePriority_unknown _ _ _ _ E).
Qed.

(** ** Starting and cancelling *)

(** X5: [download] of a segment that is not in flight announces it with
    ["segment-start-load"] before the request is registered (a listener
    asking [isDownloading] still gets false, and the blacklist it sees is
    already purged), emits no other event, and raises the count by one;
    [abort] right after brings [xhrRequests] back to what it was, leaves the
    new request object sent and aborted, and adds nothing to the trace. *)
Theorem download_then_abort (settings : Settings) (now : Z) (segment : Segment.t)
    (downloadedPieces : option (list Bytes)) (w : World) :
  isDownloading segment w = (Ok false, w) →
  let started := exec (download settings now segment downloadedPieces) w in
  let aborted := exec (abort segment) started in
  (∃ seen hooks,
     trace started = trace w ++ Emitted (SegmentStartLoad segment) seen :: hooks
     ∧ xhrRequests seen !! Segment.id segment = None
     ∧ failedSegments seen = failedSegments (self started)
     ∧ ∀ e a, Emitted e a ∉ hooks)
  ∧ outcome getActiveDownloadsCount started = Ok (S (size (xhrRequests (self w))))
  ∧ xhrRequests (self aborted) = xhrRequests (self w)
  ∧ failedSegments (self aborted) = failedSegments (self started)
  ∧ trace aborted = trace started
  ∧ ∃ x, heap aborted = heap w ++ [x] ∧ x_sent x = true ∧ x_aborted x = true.
Proof.
  intros E%isDownloading_false. cbn zeta.
  assert (exec (download settings now segment downloadedPieces) w
          = world_started settings now segment downloadedPieces w) as ->
    by (unfold exec; by rewrite (download_not_in_flight _ _ _ _ _ E)).
  set (started := world_started settings now segment downloadedPieces w).
  assert (xhrRequests (self started) !! Segment.id segment
          = Some (mkRequest (length (heap w))
                    (Segment.with_requestUrl (segmentUrl_of settings segment) segment)
                    (Segment.priority segment) (segmentUrl_of settings segment))) as Es
    by apply lookup_insert_eq.
  assert (exec (abort segment) started
          = mkWorld (mkAdapter (delete (Segment.id segment) (xhrRequests (self started)))
                               (failedSegments (self started)))
                    (alter xhr_abort (length (heap w)) (heap started)) (trace started)) as ->
    by (unfold exec; by rewrite (abort_downloading _ _ _ Es)).
  cbn [self xhrRequests failedSegments trace heap].
  split.
  { eexists _, _. split; [reflexivity|]. cbn. split; [done|]. split; [done|].
    intros e a Hin. unfold urlBuilder_calls, xhrSetup_calls in Hin.
    repeat case_match; cbn in Hin;
      repeat (apply elem_of_cons in Hin as [Hin|Hin]; [discriminate|]);
      by apply elem_of_nil in Hin. }
  split.
  { unfold outcome, getActiveDownloadsCount, gets. cbn.
    by rewrite map_size_insert_None. }
  split; [by apply delete_insert_id|]. split; [done|]. split; [done|].
  eexists. cbn [started world_started heap]. rewrite alter_last.
  split; [reflexivity|]. unfold xhr_started. by destruct (xhrSetup settings).
Qed.

Lemma download_then_abort_witness :
  isDownloading Examples.s1 Examples.started = (Ok false, Examples.started)
  ∧ xhrRequests
      (self (exec (abort Examples.s1)
               (exec (download Examples.plain 5 Examples.s1 None) Examples.started)))
    = xhrRequests (self Examples.started).
Proof.
  split; [reflexivity|].
  by destruct (download_then_abort Examples.plain 5 Examples.s1 None Examples.started
                 eq_refl) as (_ & _ & H & _).
Defined.

(** ** What changes the answers of [isFailed] *)

(** X6: no call of the scheduler ([download], [updatePriority], [abort],
    [destroy]) and no signal for another segment changes what [isFailed]
    answers for a segment, at the time of the call or at any later time:
    the purge only removes entries for which the answer is already false. *)
Theorem isFailed_unchanged (settings : Settings) (now : Z) (c : Call) (t' : Z)
    (segment : Segment.t) (w : World) :
  ¬ signals (Segment.id segment) w c →
  now ≤ t' →
  outcome (isFailed t' segment) (exec (call settings now c) w)
  = outcome (isFailed t' segment) w.
Proof.
  intros Hc Ht. unfold outcome, isFailed, gets. cbn [fst]. f_equal.
  destruct (call_blacklist settings now c (Segment.id segment) w Hc)
    as [->|[-> (time & -> & Hlt)]]; [done|].
  symmetry. apply bool_decide_eq_false. lia.
Qed.

Lemma isFailed_unchanged_witness :
  ¬ signals "s0" Examples.failed_at_100 Examples.late_download
  ∧ failedSegments
      (self (exec (call Examples.plain 20000 Examples.late_download) Examples.failed_at_100))
      !! "s0" = None
  ∧ outcome (isFailed 20000 Examples.s0)
      (exec (call Examples.plain 20000 Examples.late_download) Examples.failed_at_100)
    = outcome (isFailed 20000 Examples.s0) Examples.failed_at_100.
Proof.
  assert (¬ signals "s0" Examples.failed_at_100 Examples.late_download) as Hc
    by (cbn; tauto).
  split; [exact Hc|]. split; [reflexivity|].
  apply (isFailed_unchanged Examples.plain 20000 Examples.late_download 20000 Examples.s0
           Examples.failed_at_100 Hc).
  lia.
Defined.

(** ** The maps after a signal *)

(** X7: a signal to a request object without listeners changes neither map.
    Otherwise, on one of the four failures the segment of the listeners is
    deleted from [xhrRequests] and its blacklist entry is set; on a
    successful end (["load"] with a 2xx status and no validator, or the
    validator's acceptance) the segment is deleted from [xhrRequests] and the
    blacklist is as before, so a success never clears an earlier failure; a
    2xx ["load"] that goes to the validator deletes nothing and only writes
    [responseUrl] into the segment that the request's own record shares with
    the listeners; on every other signal (["progress"], a settlement nobody
    is waiting for) both maps are as before. *)
Theorem deliver_effect (settings : Settings) (now : Z) (h : nat) (signal : Signal)
    (w : World) :
  let w' := exec (deliver settings now h signal) w in
  match listeners_at w h with
  | None => self w' = self w
  | Some l =>
      let id := Segment.id (l_segment l) in
      match failure_cause settings l signal, success_signal settings l signal, signal with
      | Some _, _, _ =>
          xhrRequests (self w') = delete id (xhrRequests (self w))
          ∧ failedSegments (self w')
            = <[id := now + httpFailedSegmentTimeout settings]> (failedSegments (self w))
      | None, true, _ =>
          xhrRequests (self w') = delete id (xhrRequests (self w))
          ∧ failedSegments (self w') = failedSegments (self w)
      | None, false, Load _ _ responseURL =>
          failedSegments (self w') = failedSegments (self w)
          ∧ ∀ id',
              xhrRequests (self w') !! id'
              = if decide (id' = id)
                then record_responseUrl h responseURL <$> xhrRequests (self w) !! id'
                else xhrRequests (self w) !! id'
      | None, false, _ => self w' = self w
      end
  end.
Proof.
  cbn zeta. rewrite deliver_maps.
  destruct (listeners_at w h) as [l|]; [|done]. cbn zeta.
  destruct (failure_cause settings l signal); [done|].
  destruct (success_signal settings l signal); [done|].
  destruct signal as [| status response responseURL | | |]; try done.
  cbn. split; [done|]. intros id'. case_decide as Hid.
  - subst id'. apply lookup_alter_eq.
  - by apply lookup_alter_ne.
Qed.

(** X8: when a request that resumes from earlier chunks is answered with a
    status in 200..299 other than 206, the server has sent the whole
    segment: the earlier chunks are not prepended and the response is passed
    on as it is. *)
Theorem complete_response_drops_chunks (settings : Settings) (now : Z) (h : nat)
    (x : Xhr) (l : Listeners) (pieces : list Bytes) (status : Z) (response : Bytes)
    (responseURL : option string) (w : World) :
  heap w !! h = Some x →
  x_listeners x = Some l →
  l_downloadedPieces l = Some pieces →
  200 ≤ status < 300 →
  status ≠ 206 →
  hands_over settings w
    (exec (deliver settings now h (Load status response responseURL)) w) response.
Proof.
  intros Hx Hl Hp Hs Hne. unfold exec.
  rewrite (load_success _ _ _ _ _ _ _ _ _ Hx Hl Hs).
  unfold load_data. rewrite Hp, bool_decide_eq_false_2 by done.
  unfold hands_over. eexists. cbn [snd]. by destruct (segmentValidator settings).
Qed.

Lemma complete_response_drops_chunks_witness :
  ∃ x l,
    heap Examples.resumed !! 0%nat = Some x
    ∧ x_listeners x = Some l
    ∧ l_downloadedPieces l = Some Examples.chunks
    ∧ hands_over Examples.plain Examples.resumed
        (exec (deliver Examples.plain 9 0 (Load 200 [Byte.x47; Byte.x40] None))
              Examples.resumed)
        [Byte.x47; Byte.x40].
Proof.
  eexists _, _. split; [reflexivity|]. split; [reflexivity|]. split; [reflexivity|].
  eapply (complete_response_drops_chunks Examples.plain 9 0%nat _ _ Examples.chunks 200);
    [reflexivity..|lia|lia].
Defined.

(** ** The layout of a reassembled segment *)

(** X9: the copying loops of the ["load"] listener never write outside the
    new array (no [RangeError]) and touch nothing else; the array is as long
    as the chunks and the response together, every chunk sits at the offset
    equal to the lengths of the chunks before it, and the response follows
    the last chunk. *)
Theorem reassemble_layout (downloadedPieces : list Bytes) (data : Bytes) (w : World) :
  ∃ segmentData,
    reassemble downloadedPieces data w = (Ok segmentData, w)
    ∧ byteLength segmentData = sum_byteLength downloadedPieces + byteLength data
    ∧ (∀ i piece,
         downloadedPieces !! i = Some piece →
         take (length piece)
              (drop (Z.to_nat (sum_byteLength (take i downloadedPieces))) segmentData)
         = piece)
    ∧ drop (Z.to_nat (sum_byteLength downloadedPieces)) segmentData = data.
Proof.
  exists (concat downloadedPieces ++ data).
  split; [apply reassemble_concat|]. split; [|split].
  - rewrite sum_byteLength_concat. unfold byteLength. rewrite length_app. lia.
  - intros i piece Hi. rewrite sum_byteLength_concat. unfold byteLength.
    rewrite Nat2Z.id.
    rewrite <- (take_drop_middle downloadedPieces i piece Hi) at 2.
    rewrite concat_app. cbn [concat]. rewrite <- !app_assoc.
    rewrite drop_app_length. by rewrite take_app_length.
  - rewrite sum_byteLength_concat. unfold byteLength. rewrite Nat2Z.id.
    apply drop_app_length.
Qed.

Lemma reassemble_layout_witness :
  ∃ segmentData,
    Examples.chunks !! 1%nat = Some [Byte.x11]
    ∧ reassemble Examples.chunks [Byte.x22] initial = (Ok segmentData, initial)
    ∧ take 1 (drop 2 segmentData) = [Byte.x11].
Proof.
  destruct (reassemble_layout Examples.chunks [Byte.x22] initial)
    as (segmentData & Hrun & _ & Hat & _).
  exists segmentData. split; [reflexivity|]. split; [exact Hrun|].
  exact (Hat 1%nat [Byte.x11] eq_refl).
Defined.

(** ** Cancelling during validation *)

(** X10: [abort] does not cancel a validation that is under way.  The
    segment is no longer downloading once [abort] returns, but when the
    validator's promise settles, the listener still emits
    ["segment-loaded"] on acceptance, and on rejection still blacklists the
    segment and emits ["segment-error"]. *)
Theorem abort_keeps_pending_validation (settings : Settings)
    (validator : Segment.t → string → option string) (now : Z) (h : nat) (x : Xhr)
    (l : Listeners) (data : Bytes) (segment : Segment.t) (w : World) :
  segmentValidator settings = Some validator →
  heap w !! h = Some x →
  x_listeners x = Some l →
  l_awaiting l = Some data →
  Segment.id segment = Segment.id (l_segment l) →
  let aborted := exec (abort segment) w in
  let settled := exec (deliver settings now h Settled) aborted in
  outcome (isDownloading segment) aborted = Ok false
  ∧ trace aborted = trace w
  ∧ match validator (Segment.with_data data (l_segment l)) "http" with
    | None =>
        trace settled
        = trace w ++ [Emitted (SegmentLoaded (l_segment l) data) (self settled)]
    | Some error =>
        failedSegments (self settled) !! Segment.id segment
        = Some (now + httpFailedSegmentTimeout settings)
        ∧ ∃ segment',
            trace settled
            = trace w ++ [Emitted (SegmentError segment' (ValidatorError error))
                            (self settled)]
    end.
Proof.
  intros Hv Hx Hl Ha Hid. cbn zeta.
  assert (outcome (isDownloading segment) (exec (abort segment) w) = Ok false
          ∧ trace (exec (abort segment) w) = trace w
          ∧ listeners_at (exec (abort segment) w) h = Some l) as (Hd & Ht & Hat).
  { destruct (xhrRequests (self w) !! Segment.id segment) as [request|] eqn:E;
      unfold exec.
    - rewrite (abort_downloading _ _ _ E). cbn [snd trace].
      split; [|split; [done|]].
      + unfold outcome, isDownloading, gets. cbn. by rewrite lookup_delete_eq.
      + rewrite <- (app_nil_r (alter _ _ _)), listeners_at_aborted by eauto.
        unfold listeners_at. by rewrite Hx.
    - rewrite (abort_not_downloading _ _ E). cbn [snd].
      split; [|split; [done|]].
      + unfold outcome, isDownloading, gets. cbn. by rewrite E.
      + unfold listeners_at. by rewrite Hx. }
  split; [exact Hd|]. split; [exact Ht|].
  set (aborted := exec (abort segment) w) in *.
  unfold listeners_at in Hat.
  destruct (heap aborted !! h) as [x'|] eqn:Hx'; [|done]. cbn in Hat.
  destruct (validator (Segment.with_data data (l_segment l)) "http") as [error|] eqn:He.
  - assert (failure_cause settings l Settled = Some (ValidatorError error)) as Hc
      by (cbn; by rewrite Ha, Hv, He).
    destruct (deliver_failed settings now h x' l Settled _ aborted Hx' Hat Hc)
      as (segment' & heap' & _ & Hrun).
    unfold exec at 1 2 3. rewrite Hrun. cbn [snd self trace failedSegments].
    rewrite Hid, Ht. split; [apply lookup_insert_eq|]. by exists segment'.
  - unfold exec at 1 2.
    rewrite (settled_accepted settings now h x' l data validator aborted Hx' Hat Ha Hv He).
    cbn [snd self trace]. by rewrite Ht.
Qed.

Lemma abort_keeps_pending_validation_witness :
  ∃ x l,
    heap Examples.loaded_good !! 0%nat = Some x
    ∧ x_listeners x = Some l
    ∧ l_awaiting l = Some [Byte.x47; Byte.x01]
    ∧ outcome (isDownloading Examples.s0) (exec (abort Examples.s0) Examples.loaded_good)
      = Ok false
    ∧ trace (exec (deliver Examples.validating 50 0 Settled)
               (exec (abort Examples.s0) Examples.loaded_good))
      = trace Examples.loaded_good
        ++ [Emitted (SegmentLoaded (l_segment l) [Byte.x47; Byte.x01])
              (self (exec (deliver Examples.validating 50 0 Settled)
                       (exec (abort Examples.s0) Examples.loaded_good)))].
Proof.
  eexists _, _. split; [reflexivity|]. split; [reflexivity|].
  lazymatch goal with
  | |- l_awaiting ?l = _ ∧ _ =>
      pose proof (λ x Hx Hl,
                    abort_keeps_pending_validation Examples.validating Examples.sync_byte
                      50 0%nat x l [Byte.x47; Byte.x01] Examples.s0 Examples.loaded_good
                      eq_refl Hx Hl eq_refl eq_refl) as H
  end.
  edestruct H as (Hd & _ & Ht); [reflexivity..|].
  split; [reflexivity|]. split; [exact Hd | exact Ht].
Defined.

(** X11: the record deleted at the end of a download is the one filed under
    the segment's id, whichever request object it belongs to.  When the
    signal comes from an older request object of the same segment (a
    validation that outlived an [abort] and a new [download]), the record of
    the newer request is deleted while its request object is left as it is,
    neither aborted nor otherwise touched. *)
Theorem late_signal_drops_newer_request (settings : Settings) (now : Z) (h : nat)
    (l : Listeners) (signal : Signal) (request : Request) (w : World) :
  listeners_at w h = Some l →
  xhrRequests (self w) !! Segment.id (l_segment l) = Some request →
  xhr request ≠ h →
  is_Some (failure_cause settings l signal) ∨ success_signal settings l signal = true →
  let w' := exec (deliver settings now h signal) w in
  outcome (isDownloading (l_segment l)) w' = Ok false
  ∧ heap w' !! xhr request = heap w !! xhr request.
Proof.
  intros Hat E Hne Hend. cbn zeta. split; [|by apply confined_deliver].
  assert (∃ x, heap w !! h = Some x ∧ x_listeners x = Some l) as (x & Hx & Hl).
  { unfold listeners_at in Hat. destruct (heap w !! h) as [x|]; [|done]. eauto. }
  assert (∀ s hp t,
            outcome (isDownloading (l_segment l))
              (mkWorld (mkAdapter (delete (Segment.id (l_segment l)) (xhrRequests (self w))) s)
                       hp t) = Ok false) as Hgone.
  { intros s hp t. unfold outcome, isDownloading, gets. cbn. by rewrite lookup_delete_eq. }
  destruct Hend as [[cause Hc]|Hs].
  - destruct (deliver_failed settings now h x l signal cause w Hx Hl Hc)
      as (segment' & heap' & _ & Hrun).
    unfold exec. rewrite Hrun. apply Hgone.
  - destruct signal as [loaded computable total|status response responseURL| | |];
      cbn [success_signal] in Hs; try discriminate.
    + apply andb_true_iff in Hs as [Hs%bool_decide_eq_true Hv].
      unfold exec. rewrite (load_success _ _ _ _ _ _ _ _ _ Hx Hl Hs).
      destruct (segmentValidator settings); [discriminate|]. apply Hgone.
    + destruct (l_awaiting l) as [data|] eqn:Ha; [|discriminate].
      destruct (segmentValidator settings) as [validator|] eqn:Hv; [|discriminate].
      apply bool_decide_eq_true in Hs. unfold exec.
      rewrite (settled_accepted settings now h x l data validator w Hx Hl Ha Hv Hs).
      apply Hgone.
Qed.

Lemma late_signal_drops_newer_request_witness :
  ∃ l request x,
    listeners_at Examples.restarted_during_validation 0 = Some l
    ∧ xhrRequests (self Examples.restarted_during_validation) !! Segment.id (l_segment l)
      = Some request
    ∧ xhr request = 1%nat
    ∧ outcome (isDownloading (l_segment l))
        (exec (deliver Examples.validating 80 0 Settled)
              Examples.restarted_during_validation) = Ok false
    ∧ heap (exec (deliver Examples.validating 80 0 Settled)
                 Examples.restarted_during_validation) !! 1%nat = Some x
    ∧ x_sent x = true
    ∧ x_aborted x = false.
Proof.
  eexists _, _, _. split; [reflexivity|]. split; [reflexivity|]. split; [reflexivity|].
  lazymatch goal with
  | |- outcome (isDownloading (l_segment ?l)) _ = _ ∧ _ =>
      pose proof (λ request E Hne,
                    late_signal_drops_newer_request Examples.validating 80 0%nat l Settled
                      request Examples.restarted_during_validation eq_refl E Hne
                      (or_intror eq_refl)) as H
  end.
  edestruct H as (Hd & Hh); [reflexivity|vm_compute; discriminate|].
  split; [exact Hd|]. split; [etransitivity; [exact Hh|reflexivity]|].
  split; reflexivity.
Defined.

(** ** Downloading a blacklisted segment *)

(** X12: [download] does not consult the blacklist.  A segment that is not
    in flight and for which [isFailed] is true is announced with
    ["segment-start-load"] and requested like any other; afterwards it is in
    flight and [isFailed] is still true for it. *)
Theorem download_ignores_blacklist (settings : Settings) (now : Z) (segment : Segment.t)
    (downloadedPieces : option (list Bytes)) (w : World) :
  isDownloading segment w = (Ok false, w) →
  isFailed now segment w = (Ok true, w) →
  let w' := exec (download settings now segment downloadedPieces) w in
  outcome (isDownloading segment) w' = Ok true
  ∧ outcome (isFailed now segment) w' = Ok true
  ∧ (∃ seen rest, trace w' = trace w ++ Emitted (SegmentStartLoad segment) seen :: rest)
  ∧ ∃ x, heap w' = heap w ++ [x] ∧ x_sent x = true.
Proof.
  intros E%isDownloading_false Hf. cbn zeta. unfold exec, outcome.
  rewrite (download_not_in_flight _ _ _ _ _ E). unfold world_started.
  cbn [fst snd]. split; [|split; [|split]].
  - unfold isDownloading, gets. cbn. by rewrite lookup_insert_eq.
  - unfold isFailed, gets in *. cbn [fst self failedSegments]. injection Hf as Hf.
    rewrite lookup_purged.
    destruct (failedSegments (self w) !! Segment.id segment) as [time|]; [|done].
    apply bool_decide_eq_true in Hf.
    rewrite bool_decide_eq_false_2 by lia. f_equal. apply bool_decide_eq_true. lia.
  - cbn. eauto.
  - eexists. cbn. split; [reflexivity|]. unfold xhr_started. by destruct (xhrSetup settings).
Qed.

Lemma download_ignores_blacklist_witness :
  isDownloading Examples.s0 Examples.failed_at_100 = (Ok false, Examples.failed_at_100)
  ∧ isFailed 200 Examples.s0 Examples.failed_at_100 = (Ok true, Examples.failed_at_100)
  ∧ outcome (isDownloading Examples.s0)
      (exec (download Examples.plain 200 Examples.s0 None) Examples.failed_at_100) = Ok true
  ∧ outcome (isFailed 200 Examples.s0)
      (exec (download Examples.plain 200 Examples.s0 None) Examples.failed_at_100) = Ok true.
Proof.
  split; [reflexivity|]. split; [reflexivity|].
  destruct (download_ignores_blacklist Examples.plain 200 Examples.s0 None
              Examples.failed_at_100 eq_refl eq_refl) as (Hd & Hf & _).
  split; [exact Hd | exact Hf].
Defined.
